(** * Postprocess-MEP-project: the Speckle Automate handler of [main.py]

    A shallow embedding of [automate_function] (main.py, lines 32-122) and
    the properties of its request / render / report flow.

    The handler is straight-line effectful code: it prints, issues one HTTP
    POST, writes a file, and calls three methods of the platform's context
    object.  It is embedded in a state-and-exception monad over a machine
    state made of the local files and a chronological log of the calls that
    left the process.  Everything the handler calls but does not define
    (requests, pandas, the operating system, the Speckle SDK) is a field of
    the record [World]: the theorems quantify over all worlds.  Standard
    output is a parameter of its own, a [console], since a [print] can
    raise; [run] is the run on a console that takes everything, [run_on] the
    run on any console.

    A Python [str] is kept as the bytes of its UTF-8 encoding.  A lone
    surrogate, which [json.loads] produces from an escape such as
    [\ud800] and which no UTF-8 stream encodes, is kept as the three bytes
    that Python's [surrogatepass] gives it. *)

From Stdlib Require Import ZArith Floats.SpecFloat.
From stdpp Require Import base option list strings gmap.

Local Open Scope string_scope.
Local Open Scope list_scope.
Set Warnings "-register-all".

(** ** Python values *)

(** An instance of Python's [Exception]: its class name and [str(e)], the
    text an f-string substitutes for [{e}]. *)
Record Exception : Type := mkException {
  exc_type : string;
  exc_str : string
}.

(** What [Response.json()] can return: the values of Python's [json.loads].
    A [dict] is kept as its items in insertion order. *)
Inductive json : Type :=
| JNull
| JBool (b : bool)
| JInt (n : Z)
| JFloat (f : spec_float)
| JStr (s : string)
| JArr (xs : list json)
| JObj (items : list (string * json)).

Definition float_is_zero (f : spec_float) : bool :=
  match f with
  | S754_zero _ => true
  | _ => false
  end.

(** Python's truth value testing ([bool(v)]), as the [if] of line 94 uses it. *)
Definition truthy (v : json) : bool :=
  match v with
  | JNull => false
  | JBool b => b
  | JInt n => negb (n =? 0)%Z
  | JFloat f => negb (float_is_zero f)
  | JStr s => match s with EmptyString => false | String _ _ => true end
  | JArr xs => match xs with [] => false | _ :: _ => true end
  | JObj items => match items with [] => false | _ :: _ => true end
  end.

(** [type(v).__name__] *)
Definition type_name (v : json) : string :=
  match v with
  | JNull => "NoneType"
  | JBool _ => "bool"
  | JInt _ => "int"
  | JFloat _ => "float"
  | JStr _ => "str"
  | JArr _ => "list"
  | JObj _ => "dict"
  end.

Definition is_dict (v : json) : bool :=
  match v with
  | JObj _ => true
  | _ => false
  end.

(** Lookup in the items of a [dict]. *)
Fixpoint assoc {V : Type} (k : string) (items : list (string * V)) : option V :=
  match items with
  | [] => None
  | (k', v) :: rest => if String.eqb k k' then Some v else assoc k rest
  end.

(** [json.loads(json.dumps(data))] of line 85.  [data] is a [dict] whose
    keys and leaves are all [str]; serialising it cannot fail and parsing the
    text back gives an equal [dict], so on these values the round trip is the
    identity. *)
Definition json_loads_dumps (data : json) : json := data.

(** ** The platform's records *)

(** pydantic's [SecretStr]: a wrapper read with [get_secret_value()]. *)
Record SecretStr : Type := mkSecretStr { get_secret_value : string }.

(** main.py, lines 18-29. *)
Record FunctionInputs : Type := mkFunctionInputs {
  username : string;
  speckle_token : SecretStr;
  api_url : SecretStr;
  api_token : SecretStr
}.

(** The fields of the SDK's run data that the handler reads. *)
Record TriggerPayload : Type := mkTriggerPayload {
  model_id : string;
  version_id : string
}.

Record Trigger : Type := mkTrigger { payload : TriggerPayload }.

Record AutomationRunData : Type := mkAutomationRunData {
  speckle_server_url : string;
  project_id : string;
  triggers : list Trigger
}.

Record AutomationContext : Type := mkAutomationContext {
  automation_run_data : AutomationRunData
}.

(** ** Effects *)

(** An argument of a [print] call. *)
Inductive printed : Type :=
| PStr (s : string)
| PDict (d : list (string * string))
| PJson (v : json)
| PType (name : string)
(** the f-string [f'{key}: {val}'] of line 91, [val] being any value *)
| PItem (key : string) (val : json).

Inductive event : Type :=
| Stdout (args : list printed)
| HttpPost (url : string) (body : json) (headers : list (string * string))
| StoreFileResult (file_path : string)
| MarkRunSuccess (status_message : string)
| MarkRunFailed (status_message : string).

(** The local files by path, and the calls made so far, oldest first.
    [files] holds the working directory by the name the handler's own [open]
    uses: one entry per name.  Two spellings of one file, links, and files
    written by a collaborator are outside the model. *)
Record state : Type := mkState {
  files : gmap string string;
  log : list event
}.

(** The collaborators.  A call that can raise answers with the exception. *)
Record World : Type := mkWorld {
  (** [requests.post(url, json=body, headers=headers).json()]: the parsed
      reply, or the error of the transport or of the JSON decoder. *)
  http_post_json : string → json → list (string * string) → Exception + json;
  (** [pd.DataFrame(v)] and [df.to_html()] *)
  DataFrame : Type;
  pd_DataFrame : json → Exception + DataFrame;
  to_html : DataFrame → Exception + string;
  (** [open(path, "w")] fails with an error or truncates the file;
      [fp.write(text)] succeeds, or fails leaving part of the text. *)
  os_open_w : gmap string string → string → option Exception;
  os_write : string → string → option (Exception * string);
  (** the methods of the context object *)
  sdk_store_file_result : gmap string string → string → option Exception;
  sdk_mark_run_success : string → option Exception;
  sdk_mark_run_failed : string → option Exception
}.

Inductive outcome (A : Type) : Type :=
| Returned (a : A)
| Raised (e : Exception).
Arguments Returned {A} a.
Arguments Raised {A} e.

(** Effects performed before an exception is raised stay performed. *)
Definition M (A : Type) : Type := state → outcome A * state.

#[export] Instance M_ret : MRet M := λ A a s, (Returned a, s).

#[export] Instance M_bind : MBind M := λ A B f m s,
  match m s with
  | (Returned a, s') => f a s'
  | (Raised e, s') => (Raised e, s')
  end.

Definition raise {A : Type} (e : Exception) : M A := λ s, (Raised e, s).

(** [try: body / except Exception as e: handler e] *)
Definition try_except {A : Type} (body : M A) (handler : Exception → M A) : M A :=
  λ s,
  match body s with
  | (Returned a, s') => (Returned a, s')
  | (Raised e, s') => handler e s'
  end.

Definition emit (ev : event) : M unit :=
  λ s, (Returned (), mkState (files s) (log s ++ [ev])).

Definition get_files : M (gmap string string) := λ s, (Returned (files s), s).

Definition put_file (path text : string) : M unit :=
  λ s, (Returned (), mkState (<[path := text]> (files s)) (log s)).

Definition of_sum {A : Type} (r : Exception + A) : M A :=
  match r with
  | inl e => raise e
  | inr a => mret a
  end.

Definition of_error (r : option Exception) : M unit :=
  match r with
  | Some e => raise e
  | None => mret ()
  end.

(** [for x in xs: body x] *)
Fixpoint for_ {A : Type} (xs : list A) (body : A → M unit) : M unit :=
  match xs with
  | [] => mret ()
  | x :: rest => body x ;; for_ rest body
  end.

(** [sys.stdout] as [print] meets it: what writing these arguments raises,
    if anything ([UnicodeEncodeError] for text the stream cannot encode,
    [OSError] for a stream that cannot be written to). *)
Definition console : Type := list printed → option Exception.

(** A console that takes everything. *)
Definition accepting : console := λ _, None.

Definition print (out : console) (args : list printed) : M unit :=
  emit (Stdout args) ;; of_error (out args).

(** [xs[i]] on a list *)
Definition list_getitem {A : Type} (xs : list A) (i : nat) : M A :=
  match xs !! i with
  | Some x => mret x
  | None => raise (mkException "IndexError" "list index out of range")
  end.

Definition no_attribute (v : json) (attr : string) : Exception :=
  mkException "AttributeError"
    ("'" +:+ type_name v +:+ "' object has no attribute '" +:+ attr +:+ "'").

(** [v.items()]: only a [dict] has the method. *)
Definition dict_items (v : json) : M (list (string * json)) :=
  match v with
  | JObj items => mret items
  | _ => raise (no_attribute v "items")
  end.

(** [v.get(key)]: the value, or [None] when the key is absent. *)
Definition dict_get (v : json) (key : string) : M json :=
  match v with
  | JObj items => mret (default JNull (assoc key items))
  | _ => raise (no_attribute v "get")
  end.

(** [v[key]] with a [str] key. *)
Definition getitem (v : json) (key : string) : M json :=
  match v with
  | JObj items =>
      match assoc key items with
      | Some x => mret x
      | None => raise (mkException "KeyError" ("'" +:+ key +:+ "'"))
      end
  | _ => raise (mkException "TypeError" ("'" +:+ type_name v +:+ "' object is not subscriptable"))
  end.

Section Collaborators.
Variable W : World.

Definition requests_post_json (url : string) (body : json)
    (headers : list (string * string)) : M json :=
  emit (HttpPost url body headers) ;;
  of_sum (http_post_json W url body headers).

(** [with open(path, "w") as fp: fp.write(text)] *)
Definition open_write (path text : string) : M unit :=
  fs ← get_files;
  of_error (os_open_w W fs path) ;;
  put_file path "" ;;
  match os_write W path text with
  | Some (e, part) => put_file path part ;; raise e
  | None => put_file path text
  end.

Definition store_file_result (file_path : string) : M unit :=
  emit (StoreFileResult file_path) ;;
  fs ← get_files;
  of_error (sdk_store_file_result W fs file_path).

Definition mark_run_success (status_message : string) : M unit :=
  emit (MarkRunSuccess status_message) ;;
  of_error (sdk_mark_run_success W status_message).

Definition mark_run_failed (status_message : string) : M unit :=
  emit (MarkRunFailed status_message) ;;
  of_error (sdk_mark_run_failed W status_message).
End Collaborators.

(** ** The handler *)

(** main.py, line 53 *)
Definition source_url (ard : AutomationRunData) (pl : TriggerPayload) : string :=
  speckle_server_url ard +:+ "/projects/" +:+ project_id ard +:+
  "/models/" +:+ model_id pl +:+ "@" +:+ version_id pl.

(** main.py, lines 50-56 *)
Definition request_data (ard : AutomationRunData) (pl : TriggerPayload)
    (function_inputs : FunctionInputs) : json :=
  JObj [("datafusr_config",
         JObj [("project_name", JStr "MEPPostprocessingProject");
               ("source_url", JStr (source_url ard pl));
               ("speckle_token",
                JStr (get_secret_value (speckle_token function_inputs)))])].

(** main.py, lines 59-66 *)
Definition request_headers (function_inputs : FunctionInputs) : list (string * string) :=
  [("content-type", "application/json");
   ("enable-logging", "False");
   ("source-application", "RoomBook");
   ("return-type", "tables");
   ("username", username function_inputs);
   ("token", get_secret_value (api_token function_inputs))].

(** main.py, line 79 *)
Definition request_url (function_inputs : FunctionInputs) : string :=
  get_secret_value (api_url function_inputs) +:+ "/from_datafusr".

(** main.py, lines 96-112: the body of the [try]. *)
Definition render_and_store (W : World) (response : json) : M unit :=
  building_data ← getitem response "building_data";
  building_data_df ← of_sum (pd_DataFrame W building_data);
  building_data_html ← of_sum (to_html W building_data_df);
  open_write W "building_data.html" building_data_html ;;
  store_file_result W "building_data_html" ;;
  mark_run_success W "Building data table successfully generated!".

(** main.py, lines 93-122 *)
Definition handle_response (W : World) (response : json) : M unit :=
  building_data ← dict_get response "building_data";
  if truthy building_data then
    try_except (render_and_store W response)
      (λ e, mark_run_failed W ("Automation failed: " +:+ exc_str e))
  else
    mark_run_failed W "Automation failed: No building data could be retrieved!".

(** main.py, lines 32-122 *)
Definition automate_function (out : console) (W : World)
    (automate_context : AutomationContext) (function_inputs : FunctionInputs)
    : M unit :=
  let ard := automation_run_data automate_context in
  trigger ← list_getitem (triggers (automation_run_data automate_context)) 0;
  let pl := payload trigger in
  let data := request_data ard pl function_inputs in
  let headers := request_headers function_inputs in
  print out [PStr "Headers:"; PDict headers] ;;
  print out [PStr "Headers type:"; PType "dict"] ;;
  for_ headers (λ kv, print out [PStr (kv.1 +:+ ": " +:+ kv.2)]) ;;
  let url := request_url function_inputs in
  print out [PStr "URL:"; PStr url] ;;
  response ← requests_post_json W url (json_loads_dumps data) headers;
  print out [PStr "Response:"; PJson response] ;;
  print out [PStr "Response type:"; PType (type_name response)] ;;
  items ← dict_items response;
  for_ items (λ kv, print out [PItem kv.1 kv.2]) ;;
  handle_response W response.

(** One run of the process on the console [out]: the handler started on the
    files [fs] with an empty log. *)
Definition run_on (out : console) (W : World) (automate_context : AutomationContext)
    (function_inputs : FunctionInputs) (fs : gmap string string)
    : outcome unit * state :=
  automate_function out W automate_context function_inputs (mkState fs []).

(** One run of the process in which every [print] goes through: the run on
    a console that takes everything. *)
Definition run (W : World) (automate_context : AutomationContext)
    (function_inputs : FunctionInputs) (fs : gmap string string)
    : outcome unit * state :=
  run_on accepting W automate_context function_inputs fs.

(** ** Reading the log *)

Definition is_print (ev : event) : bool :=
  match ev with Stdout _ => true | _ => false end.
Definition is_post (ev : event) : bool :=
  match ev with HttpPost _ _ _ => true | _ => false end.
Definition is_store (ev : event) : bool :=
  match ev with StoreFileResult _ => true | _ => false end.
Definition is_success (ev : event) : bool :=
  match ev with MarkRunSuccess _ => true | _ => false end.
Definition is_failed (ev : event) : bool :=
  match ev with MarkRunFailed _ => true | _ => false end.
Definition is_report (ev : event) : bool := is_success ev || is_failed ev.

(** The calls of one kind, in order, and how many there are. *)
Definition calls (kind : event → bool) (l : list event) : list event :=
  List.filter kind l.
Definition count (kind : event → bool) (l : list event) : nat :=
  length (calls kind l).

(** What [print] shows before the request leaves, and the request. *)
Definition request_log (ard : AutomationRunData) (pl : TriggerPayload)
    (function_inputs : FunctionInputs) : list event :=
  [Stdout [PStr "Headers:"; PDict (request_headers function_inputs)];
   Stdout [PStr "Headers type:"; PType "dict"]] ++
  map (λ kv, Stdout [PStr (kv.1 +:+ ": " +:+ kv.2)]) (request_headers function_inputs) ++
  [Stdout [PStr "URL:"; PStr (request_url function_inputs)];
   HttpPost (request_url function_inputs)
     (request_data ard pl function_inputs) (request_headers function_inputs)].

Definition response_log (response : json) : list event :=
  [Stdout [PStr "Response:"; PJson response];
   Stdout [PStr "Response type:"; PType (type_name response)]].

Definition items_log (items : list (string * json)) : list event :=
  map (λ kv, Stdout [PItem kv.1 kv.2]) items.

Arguments request_log : simpl never.
Arguments response_log : simpl never.
Arguments items_log : simpl never.

(** How a call that answers with an optional error ends. *)
Definition outcome_of (r : option Exception) : outcome unit :=
  match r with
  | Some e => Raised e
  | None => Returned ()
  end.

(** The steps of the [try] body (lines 99-112) at which an exception can
    come up. *)
Inductive stage : Type :=
| DataFrameConstruction
| HtmlConversion
| FileOpen
| FileWrite
| FileRegistration
| SuccessReport.

(** The platform calls the [try] body has made when it stops at a stage. *)
Definition stage_calls (st : stage) : list event :=
  match st with
  | FileRegistration => [StoreFileResult "building_data_html"]
  | SuccessReport =>
      [StoreFileResult "building_data_html";
       MarkRunSuccess "Building data table successfully generated!"]
  | _ => []
  end.

(** [raises_at W fs v e st fs']: started on the files [fs] with the table
    data [v], the [try] body raises [e] at stage [st] and leaves the files
    [fs']. *)
Inductive raises_at (W : World) (fs : gmap string string) (v : json)
    (e : Exception) : stage → gmap string string → Prop :=
| raises_DataFrame :
    pd_DataFrame W v = inl e →
    raises_at W fs v e DataFrameConstruction fs
| raises_to_html df :
    pd_DataFrame W v = inr df →
    to_html W df = inl e →
    raises_at W fs v e HtmlConversion fs
| raises_open df html :
    pd_DataFrame W v = inr df →
    to_html W df = inr html →
    os_open_w W fs "building_data.html" = Some e →
    raises_at W fs v e FileOpen fs
| raises_write df html part :
    pd_DataFrame W v = inr df →
    to_html W df = inr html →
    os_open_w W fs "building_data.html" = None →
    os_write W "building_data.html" html = Some (e, part) →
    raises_at W fs v e FileWrite (<["building_data.html" := part]> fs)
| raises_store df html :
    pd_DataFrame W v = inr df →
    to_html W df = inr html →
    os_open_w W fs "building_data.html" = None →
    os_write W "building_data.html" html = None →
    sdk_store_file_result W (<["building_data.html" := html]> fs)
      "building_data_html" = Some e →
    raises_at W fs v e FileRegistration (<["building_data.html" := html]> fs)
| raises_success df html :
    pd_DataFrame W v = inr df →
    to_html W df = inr html →
    os_open_w W fs "building_data.html" = None →
    os_write W "building_data.html" html = None →
    sdk_store_file_result W (<["building_data.html" := html]> fs)
      "building_data_html" = None →
    sdk_mark_run_success W "Building data table successfully generated!" = Some e →
    raises_at W fs v e SuccessReport (<["building_data.html" := html]> fs).

(** [renders W fs v html]: every step of the [try] body goes through, the
    table being rendered as [html]. *)
Record renders (W : World) (fs : gmap string string) (v : json)
    (html : string) : Prop := mkRenders {
  renders_df : ∃ df, pd_DataFrame W v = inr df ∧ to_html W df = inr html;
  renders_open : os_open_w W fs "building_data.html" = None;
  renders_write : os_write W "building_data.html" html = None;
  renders_store :
    sdk_store_file_result W (<["building_data.html" := html]> fs)
      "building_data_html" = None;
  renders_success :
    sdk_mark_run_success W "Building data table successfully generated!" = None
}.

(** ** The request as the specification words it *)

(** "<server>/projects/<project>/models/<model>@<version>" *)
Definition spec_source_url (server project model version : string) : string :=
  String.concat "" [server; "/projects/"; project; "/models/"; model; "@"; version].

(** {datafusr_config: {project_name, source_url, speckle_token}} *)
Definition spec_request_body (server project model version token : string) : json :=
  JObj [("datafusr_config",
         JObj [("project_name", JStr "MEPPostprocessingProject");
               ("source_url", JStr (spec_source_url server project model version));
               ("speckle_token", JStr token)])].

(** {content-type: application/json, enable-logging: false,
     source-application: RoomBook, return-type: tables, username, token} *)
Definition spec_headers (user token : string) : list (string * string) :=
  [("content-type", "application/json");
   ("enable-logging", "false");
   ("source-application", "RoomBook");
   ("return-type", "tables");
   ("username", user);
   ("token", token)].

(** Two header [dict]s are the same mapping when every key reads the same. *)
Definition same_mapping (d1 d2 : list (string * string)) : Prop :=
  ∀ k, assoc k d1 = assoc k d2.

(** ** A concrete run *)

Definition demo_context : AutomationContext :=
  mkAutomationContext
    (mkAutomationRunData "https://app.speckle.systems" "proj1"
       [mkTrigger (mkTriggerPayload "model7" "version3")]).

Definition untriggered_context : AutomationContext :=
  mkAutomationContext (mkAutomationRunData "https://app.speckle.systems" "proj1" []).

Definition demo_inputs : FunctionInputs :=
  mkFunctionInputs "rob" (mkSecretStr "speckle-secret")
    (mkSecretStr "https://mep.example/api") (mkSecretStr "api-secret").

(** [{"col": [1, 2]}] *)
Definition demo_table : json := JObj [("col", JArr [JInt 1; JInt 2])].

Definition demo_html : string := "<table><tr><th>col</th></tr><tr><td>1</td></tr><tr><td>2</td></tr></table>".

(** A platform that accepts every path, and one that wants the file to be
    there. *)
Definition store_any (fs : gmap string string) (path : string) : option Exception :=
  None.

Definition store_existing (fs : gmap string string) (path : string) : option Exception :=
  match fs !! path with
  | Some _ => None
  | None => Some (mkException "ValueError" "The given file path doesn't exist")
  end.

(** A world answering the request with [reply]; it renders [dict]s and
    lists and rejects anything else; its disk and its reports never fail. *)
Definition demo_world (reply : Exception + json)
    (store : gmap string string → string → option Exception) : World :=
  {| http_post_json := λ _ _ _, reply;
     DataFrame := json;
     pd_DataFrame := λ v,
       match v with
       | JObj _ | JArr _ => inr v
       | _ => inl (mkException "ValueError" "DataFrame constructor not properly called!")
       end;
     to_html := λ _, inr demo_html;
     os_open_w := λ _ _, None;
     os_write := λ _ _, None;
     sdk_store_file_result := store;
     sdk_mark_run_success := λ _, None;
     sdk_mark_run_failed := λ _, None |}.

Definition connection_error : Exception :=
  mkException "ConnectionError" "Connection refused".

(** main.py, lines 125-132: the body is [pass]. *)
Definition automate_function_without_inputs (automate_context : AutomationContext)
    : M unit :=
  mret ().

(** ** Every way a run can go *)

(** The reply to the request of a run whose first trigger is [t]. *)
Definition reply_to (W : World) (ctx : AutomationContext) (inputs : FunctionInputs)
    (t : Trigger) : Exception + json :=
  http_post_json W (request_url inputs)
    (request_data (automation_run_data ctx) (payload t) inputs)
    (request_headers inputs).

(** The log of a run up to the [if] of line 94. *)
Definition log_before_if (ctx : AutomationContext) (inputs : FunctionInputs)
    (t : Trigger) (items : list (string * json)) : list event :=
  request_log (automation_run_data ctx) (payload t) inputs ++
  response_log (JObj items) ++ items_log items.

(** The six exits of [automate_function] in a run whose prints all go
    through, each with the outcome and the state it ends in: line 47, line
    85, line 90, line 122, line 117 and line 112. *)
Inductive run_path (W : World) (ctx : AutomationContext) (inputs : FunctionInputs)
    (fs : gmap string string) : outcome unit * state → Prop :=
| path_no_trigger :
    triggers (automation_run_data ctx) = [] →
    run_path W ctx inputs fs
      (Raised (mkException "IndexError" "list index out of range"), mkState fs [])
| path_post_raises t ts e :
    triggers (automation_run_data ctx) = t :: ts →
    reply_to W ctx inputs t = inl e →
    run_path W ctx inputs fs
      (Raised e, mkState fs (request_log (automation_run_data ctx) (payload t) inputs))
| path_not_dict t ts v :
    triggers (automation_run_data ctx) = t :: ts →
    reply_to W ctx inputs t = inr v →
    is_dict v = false →
    run_path W ctx inputs fs
      (Raised (no_attribute v "items"),
       mkState fs (request_log (automation_run_data ctx) (payload t) inputs ++
                   response_log v))
| path_no_data t ts items :
    triggers (automation_run_data ctx) = t :: ts →
    reply_to W ctx inputs t = inr (JObj items) →
    truthy (default JNull (assoc "building_data" items)) = false →
    run_path W ctx inputs fs
      (outcome_of (sdk_mark_run_failed W
         "Automation failed: No building data could be retrieved!"),
       mkState fs
         (log_before_if ctx inputs t items ++
          [MarkRunFailed "Automation failed: No building data could be retrieved!"]))
| path_raises t ts items v e st fs' :
    triggers (automation_run_data ctx) = t :: ts →
    reply_to W ctx inputs t = inr (JObj items) →
    assoc "building_data" items = Some v →
    truthy v = true →
    raises_at W fs v e st fs' →
    run_path W ctx inputs fs
      (outcome_of (sdk_mark_run_failed W ("Automation failed: " +:+ exc_str e)),
       mkState fs'
         (log_before_if ctx inputs t items ++ stage_calls st ++
          [MarkRunFailed ("Automation failed: " +:+ exc_str e)]))
| path_returns t ts items v html :
    triggers (automation_run_data ctx) = t :: ts →
    reply_to W ctx inputs t = inr (JObj items) →
    assoc "building_data" items = Some v →
    truthy v = true →
    renders W fs v html →
    run_path W ctx inputs fs
      (Returned (),
       mkState (<["building_data.html" := html]> fs)
         (log_before_if ctx inputs t items ++
          [StoreFileResult "building_data_html";
           MarkRunSuccess "Building data table successfully generated!"])).

(** A world like [demo_world] whose disk and reports can fail: [write] is
    what [fp.write] answers, [success] and [failed] what the two report
    methods answer. *)
Definition faulty_world (reply : Exception + json)
    (write : option (Exception * string))
    (success failed : option Exception) : World :=
  {| http_post_json := λ _ _ _, reply;
     DataFrame := json;
     pd_DataFrame := λ v,
       match v with
       | JObj _ | JArr _ => inr v
       | _ => inl (mkException "ValueError" "DataFrame constructor not properly called!")
       end;
     to_html := λ _, inr demo_html;
     os_open_w := λ _ _, None;
     os_write := λ _ _, write;
     sdk_store_file_result := store_any;
     sdk_mark_run_success := λ _, success;
     sdk_mark_run_failed := λ _, failed |}.

Definition demo_reply : Exception + json :=
  inr (JObj [("building_data", demo_table)]).

Definition demo_trigger : Trigger := mkTrigger (mkTriggerPayload "model7" "version3").

Definition disk_full : Exception :=
  mkException "OSError" "[Errno 28] No space left on device".

Definition report_refused : Exception :=
  mkException "GraphQLException" "Failed to report the run status".

(** ** Prints that can raise *)

(** The arguments of the prints before the request (lines 73-82), of the
    prints of the reply (lines 88-89) and of the prints of its items
    (line 91), in the order the handler makes them. *)
Definition request_prints (function_inputs : FunctionInputs) : list (list printed) :=
  [[PStr "Headers:"; PDict (request_headers function_inputs)];
   [PStr "Headers type:"; PType "dict"]] ++
  map (λ kv, [PStr (kv.1 +:+ ": " +:+ kv.2)]) (request_headers function_inputs) ++
  [[PStr "URL:"; PStr (request_url function_inputs)]].

Arguments request_prints : simpl never.

Definition response_prints (response : json) : list (list printed) :=
  [[PStr "Response:"; PJson response];
   [PStr "Response type:"; PType (type_name response)]].

Definition items_prints (items : list (string * json)) : list (list printed) :=
  map (λ kv, [PItem kv.1 kv.2]) items.

(** A sequence of prints on the console [out]: the calls made, up to and
    including the first one that raises, and that error if there is one. *)
Fixpoint printing (out : console) (argss : list (list printed))
    : list event * option Exception :=
  match argss with
  | [] => ([], None)
  | args :: rest =>
      match out args with
      | Some e => ([Stdout args], Some e)
      | None => (Stdout args :: (printing out rest).1, (printing out rest).2)
      end
  end.

(** The console takes every print of the log [l]. *)
Definition accepted (out : console) (l : list event) : bool :=
  forallb (λ ev,
    match ev with
    | Stdout args => match out args with None => true | Some _ => false end
    | _ => true
    end) l.

(** The nine exits of [automate_function] on any console: the six of
    [run_path], reached when the prints before them go through, and a print
    that raises before the request, after the reply, or in the loop over its
    items. *)
Inductive run_path_on (out : console) (W : World) (ctx : AutomationContext)
    (inputs : FunctionInputs) (fs : gmap string string)
    : outcome unit * state → Prop :=
| on_no_trigger :
    triggers (automation_run_data ctx) = [] →
    run_path_on out W ctx inputs fs
      (Raised (mkException "IndexError" "list index out of range"), mkState fs [])
| on_request_print_raises t ts evs e :
    triggers (automation_run_data ctx) = t :: ts →
    printing out (request_prints inputs) = (evs, Some e) →
    run_path_on out W ctx inputs fs (Raised e, mkState fs evs)
| on_post_raises t ts e :
    triggers (automation_run_data ctx) = t :: ts →
    accepted out (request_log (automation_run_data ctx) (payload t) inputs) = true →
    reply_to W ctx inputs t = inl e →
    run_path_on out W ctx inputs fs
      (Raised e, mkState fs (request_log (automation_run_data ctx) (payload t) inputs))
| on_response_print_raises t ts v evs e :
    triggers (automation_run_data ctx) = t :: ts →
    accepted out (request_log (automation_run_data ctx) (payload t) inputs) = true →
    reply_to W ctx inputs t = inr v →
    printing out (response_prints v) = (evs, Some e) →
    run_path_on out W ctx inputs fs
      (Raised e,
       mkState fs (request_log (automation_run_data ctx) (payload t) inputs ++ evs))
| on_not_dict t ts v :
    triggers (automation_run_data ctx) = t :: ts →
    accepted out (request_log (automation_run_data ctx) (payload t) inputs) = true →
    reply_to W ctx inputs t = inr v →
    accepted out (response_log v) = true →
    is_dict v = false →
    run_path_on out W ctx inputs fs
      (Raised (no_attribute v "items"),
       mkState fs (request_log (automation_run_data ctx) (payload t) inputs ++
                   response_log v))
| on_item_print_raises t ts items evs e :
    triggers (automation_run_data ctx) = t :: ts →
    accepted out (request_log (automation_run_data ctx) (payload t) inputs) = true →
    reply_to W ctx inputs t = inr (JObj items) →
    accepted out (response_log (JObj items)) = true →
    printing out (items_prints items) = (evs, Some e) →
    run_path_on out W ctx inputs fs
      (Raised e,
       mkState fs (request_log (automation_run_data ctx) (payload t) inputs ++
                   response_log (JObj items) ++ evs))
| on_no_data t ts items :
    triggers (automation_run_data ctx) = t :: ts →
    accepted out (log_before_if ctx inputs t items) = true →
    reply_to W ctx inputs t = inr (JObj items) →
    truthy (default JNull (assoc "building_data" items)) = false →
    run_path_on out W ctx inputs fs
      (outcome_of (sdk_mark_run_failed W
         "Automation failed: No building data could be retrieved!"),
       mkState fs
         (log_before_if ctx inputs t items ++
          [MarkRunFailed "Automation failed: No building data could be retrieved!"]))
| on_raises t ts items v e st fs' :
    triggers (automation_run_data ctx) = t :: ts →
    accepted out (log_before_if ctx inputs t items) = true →
    reply_to W ctx inputs t = inr (JObj items) →
    assoc "building_data" items = Some v →
    truthy v = true →
    raises_at W fs v e st fs' →
    run_path_on out W ctx inputs fs
      (outcome_of (sdk_mark_run_failed W ("Automation failed: " +:+ exc_str e)),
       mkState fs'
         (log_before_if ctx inputs t items ++ stage_calls st ++
          [MarkRunFailed ("Automation failed: " +:+ exc_str e)]))
| on_returns t ts items v html :
    triggers (automation_run_data ctx) = t :: ts →
    accepted out (log_before_if ctx inputs t items) = true →
    reply_to W ctx inputs t = inr (JObj items) →
    assoc "building_data" items = Some v →
    truthy v = true →
    renders W fs v html →
    run_path_on out W ctx inputs fs
      (Returned (),
       mkState (<["building_data.html" := html]> fs)
         (log_before_if ctx inputs t items ++
          [StoreFileResult "building_data_html";
           MarkRunSuccess "Building data table successfully generated!"])).

(** ** Two consoles *)

(** The bytes [ED A0..BF xx] are a surrogate kept by [surrogatepass]; no
    other character has them. *)
Fixpoint has_surrogate (s : string) : bool :=
  match s with
  | EmptyString => false
  | String a tl =>
      match tl with
      | EmptyString => false
      | String b _ =>
          (Nat.eqb (Ascii.nat_of_ascii a) 237 &&
           Nat.leb 160 (Ascii.nat_of_ascii b) && Nat.leb (Ascii.nat_of_ascii b) 191)
          || has_surrogate tl
      end
  end.

(** The text a [print] argument sends to the stream as it is.  [str] of a
    [str] is the string itself; [str] of anything else a reply can hold is its
    [repr], where a surrogate is written as an escape. *)
Definition written_raw (p : printed) : list string :=
  match p with
  | PStr s => [s]
  | PJson (JStr s) => [s]
  | PItem key (JStr s) => [key; s]
  | PItem key _ => [key]
  | _ => []
  end.

(** Standard output with the UTF-8 encoding and the [strict] error handler,
    Python's default: a lone surrogate is the one thing it cannot encode.
    The text of the error is abridged: Python's also names the character and
    its position. *)
Definition utf8_stdout : console := λ args,
  if existsb has_surrogate (concat (map written_raw args))
  then Some (mkException "UnicodeEncodeError" "'utf-8' codec can't encode: surrogates not allowed")
  else None.

(** The strings of a value, keys included. *)
Fixpoint json_strings (v : json) : list string :=
  match v with
  | JStr s => [s]
  | JArr xs =>
      (fix go (l : list json) : list string :=
         match l with
         | [] => []
         | x :: rest => json_strings x ++ go rest
         end) xs
  | JObj items =>
      (fix go (l : list (string * json)) : list string :=
         match l with
         | [] => []
         | (k, x) :: rest => k :: json_strings x ++ go rest
         end) items
  | _ => []
  end.

Definition is_ascii (s : string) : bool :=
  forallb (λ c, Nat.ltb (Ascii.nat_of_ascii c) 128) (String.list_ascii_of_string s).

(** All the text a [print] argument shows, escaped or not. *)
Definition shown (p : printed) : list string :=
  match p with
  | PStr s => [s]
  | PDict d => flat_map (λ kv, [kv.1; kv.2]) d
  | PJson v => json_strings v
  | PType name => [name]
  | PItem key val => key :: json_strings val
  end.

(** Standard output with the ASCII encoding ([PYTHONIOENCODING=ascii]).  A
    [repr] keeps a printable character such as an accented letter as it is,
    so it is refused inside a [dict] as well; the non-ASCII text shown is
    taken to be printable.  The text of the error is abridged. *)
Definition ascii_stdout : console := λ args,
  if forallb is_ascii (concat (map shown args))
  then None
  else Some (mkException "UnicodeEncodeError" "'ascii' codec can't encode: ordinal not in range(128)").

(** The surrogate U+D800, as [json.loads] returns it for the escape
    [\ud800]. *)
Definition lone_surrogate : string :=
  String (Ascii.ascii_of_nat 237)
    (String (Ascii.ascii_of_nat 160) (String (Ascii.ascii_of_nat 128) EmptyString)).

(** The replies [{"note": "\ud800"}] and ["\ud800"]. *)
Definition surrogate_note : json := JObj [("note", JStr lone_surrogate)].
Definition surrogate_text : json := JStr lone_surrogate.

(** Inputs whose user name has an accented letter. *)
Definition accented_inputs : FunctionInputs :=
  mkFunctionInputs "rób" (mkSecretStr "speckle-secret")
    (mkSecretStr "https://mep.example/api") (mkSecretStr "api-secret").

(** ** Two claims as the specification words them *)

(** "Exactly one of [mark_run_success] and [mark_run_failed] is invoked,
    and exactly one HTTP POST request is issued." *)
Definition spec_one_report_one_post (r : outcome unit * state) : Prop :=
  count is_success (log r.2) + count is_failed (log r.2) = 1 ∧
  count is_post (log r.2) = 1.

(** "The invocation issues its POST to exactly the URL
    <api_url>/from_datafusr with headers equal to the mapping
    {content-type: application/json, enable-logging: false, ...}." *)
Definition spec_post (inputs : FunctionInputs) (r : outcome unit * state) : Prop :=
  ∃ body headers,
    calls is_post (log r.2) =
      [HttpPost (get_secret_value (api_url inputs) +:+ "/from_datafusr") body headers] ∧
    same_mapping headers
      (spec_headers (username inputs) (get_secret_value (api_token inputs))).

(** ** The paths of the handler, one equation each *)

Ltac step_monad :=
  unfold mbind, M_bind, mret, M_ret, raise, of_sum, of_error, print, accepting,
    emit, get_files, put_file; simpl.

Lemma for_print {A : Type} (f : A → list printed) (xs : list A) (s : state) :
  for_ xs (λ x, print accepting (f x)) s =
  (Returned (), mkState (files s) (log s ++ map (λ x, Stdout (f x)) xs)).
Proof.
  revert s. induction xs as [|x xs IH]; intros s; simpl.
  - destruct s. unfold mret, M_ret. simpl. by rewrite app_nil_r.
  - unfold mbind, M_bind, print, accepting, emit. simpl. rewrite IH. simpl.
    by rewrite <- app_assoc.
Qed.

Lemma run_no_trigger W ctx inputs fs :
  triggers (automation_run_data ctx) = [] →
  run W ctx inputs fs = (Raised (mkException "IndexError" "list index out of range"), mkState fs []).
Proof.
  intros Htr. unfold run, run_on, automate_function. rewrite Htr. reflexivity.
Qed.

Lemma run_request W ctx inputs fs t ts :
  triggers (automation_run_data ctx) = t :: ts →
  run W ctx inputs fs =
  (response ← of_sum (http_post_json W (request_url inputs)
                 (request_data (automation_run_data ctx) (payload t) inputs)
                 (request_headers inputs));
   print accepting [PStr "Response:"; PJson response] ;;
   print accepting [PStr "Response type:"; PType (type_name response)] ;;
   items ← dict_items response;
   for_ items (λ kv, print accepting [PItem kv.1 kv.2]) ;;
   handle_response W response)
  (mkState fs (request_log (automation_run_data ctx) (payload t) inputs)).
Proof.
  intros Htr. unfold run, run_on, automate_function. rewrite Htr. reflexivity.
Qed.

Lemma mark_run_failed_eq W msg s :
  mark_run_failed W msg s =
  (outcome_of (sdk_mark_run_failed W msg),
   mkState (files s) (log s ++ [MarkRunFailed msg])).
Proof.
  unfold mark_run_failed. step_monad.
  by destruct (sdk_mark_run_failed W msg).
Qed.

Lemma render_raises W items v e st fs' s :
  assoc "building_data" items = Some v →
  raises_at W (files s) v e st fs' →
  render_and_store W (JObj items) s =
  (Raised e, mkState fs' (log s ++ stage_calls st)).
Proof.
  intros Hv Hr. unfold render_and_store, getitem. rewrite Hv.
  unfold open_write, store_file_result, mark_run_success.
  destruct s as [fs l]; simpl in Hr.
  destruct Hr as [H1|df H1 H2|df html H1 H2 H3|df html part H1 H2 H3 H4
                 |df html H1 H2 H3 H4 H5|df html H1 H2 H3 H4 H5 H6];
    step_monad; rewrite H1; simpl;
    try (by rewrite app_nil_r);
    rewrite H2; simpl;
    try (by rewrite app_nil_r);
    rewrite H3; simpl;
    try (by rewrite app_nil_r);
    rewrite H4; simpl; rewrite insert_insert_eq;
    try (by rewrite app_nil_r);
    rewrite H5; simpl;
    try done;
    rewrite H6; simpl; by rewrite <- app_assoc.
Qed.

Lemma render_returns W items v html s :
  assoc "building_data" items = Some v →
  renders W (files s) v html →
  render_and_store W (JObj items) s =
  (Returned (),
   mkState (<["building_data.html" := html]> (files s))
     (log s ++ [StoreFileResult "building_data_html";
                MarkRunSuccess "Building data table successfully generated!"])).
Proof.
  intros Hv [(df & H1 & H2) H3 H4 H5 H6].
  unfold render_and_store, getitem. rewrite Hv.
  unfold open_write, store_file_result, mark_run_success.
  destruct s as [fs l]; simpl in *.
  step_monad. rewrite H1; simpl. rewrite H2; simpl. rewrite H3; simpl.
  rewrite H4; simpl. rewrite insert_insert_eq. rewrite H5; simpl.
  rewrite H6; simpl. by rewrite <- app_assoc.
Qed.

Lemma handle_no_data W items s :
  truthy (default JNull (assoc "building_data" items)) = false →
  handle_response W (JObj items) s =
  (outcome_of (sdk_mark_run_failed W
     "Automation failed: No building data could be retrieved!"),
   mkState (files s)
     (log s ++ [MarkRunFailed "Automation failed: No building data could be retrieved!"])).
Proof.
  intros Hf. unfold handle_response, dict_get. step_monad. rewrite Hf.
  apply mark_run_failed_eq.
Qed.

Lemma handle_raises W items v e st fs' s :
  assoc "building_data" items = Some v →
  truthy v = true →
  raises_at W (files s) v e st fs' →
  handle_response W (JObj items) s =
  (outcome_of (sdk_mark_run_failed W ("Automation failed: " +:+ exc_str e)),
   mkState fs'
     (log s ++ stage_calls st ++ [MarkRunFailed ("Automation failed: " +:+ exc_str e)])).
Proof.
  intros Hv Ht Hr. unfold handle_response, dict_get. step_monad.
  rewrite Hv; simpl. rewrite Ht. unfold try_except.
  rewrite (render_raises W items v e st fs' s Hv Hr).
  rewrite mark_run_failed_eq. simpl. by rewrite <- app_assoc.
Qed.

Lemma handle_returns W items v html s :
  assoc "building_data" items = Some v →
  truthy v = true →
  renders W (files s) v html →
  handle_response W (JObj items) s =
  (Returned (),
   mkState (<["building_data.html" := html]> (files s))
     (log s ++ [StoreFileResult "building_data_html";
                MarkRunSuccess "Building data table successfully generated!"])).
Proof.
  intros Hv Ht Hr. unfold handle_response, dict_get. step_monad.
  rewrite Hv; simpl. rewrite Ht. unfold try_except.
  by rewrite (render_returns W items v html s Hv Hr).
Qed.

(** The runs that get as far as the request. *)
Section Requested.
Variables (W : World) (ctx : AutomationContext) (inputs : FunctionInputs).
Variables (fs : gmap string string) (t : Trigger) (ts : list Trigger).
Hypothesis Htriggers : triggers (automation_run_data ctx) = t :: ts.

Let ard := automation_run_data ctx.
Let pl := payload t.
Let reply :=
  http_post_json W (request_url inputs) (request_data ard pl inputs)
    (request_headers inputs).

Lemma run_post_raises e :
  reply = inl e →
  run W ctx inputs fs = (Raised e, mkState fs (request_log ard pl inputs)).
Proof.
  intros He. rewrite (run_request _ _ _ _ _ _ Htriggers).
  fold ard pl reply. rewrite He. reflexivity.
Qed.

Lemma run_not_dict v :
  reply = inr v →
  is_dict v = false →
  run W ctx inputs fs =
  (Raised (no_attribute v "items"),
   mkState fs (request_log ard pl inputs ++ response_log v)).
Proof.
  intros He Hv. rewrite (run_request _ _ _ _ _ _ Htriggers).
  fold ard pl reply. rewrite He.
  destruct v; try discriminate Hv; reflexivity.
Qed.

Lemma run_dict items :
  reply = inr (JObj items) →
  run W ctx inputs fs =
  handle_response W (JObj items)
    (mkState fs (request_log ard pl inputs ++ response_log (JObj items) ++
                 items_log items)).
Proof.
  intros He. rewrite (run_request _ _ _ _ _ _ Htriggers).
  fold ard pl reply. rewrite He.
  unfold dict_items. step_monad.
  rewrite (for_print (λ kv : string * json, [PItem kv.1 kv.2])). simpl.
  reflexivity.
Qed.
End Requested.

(** ** Calls in the log *)

Lemma calls_app kind l1 l2 :
  calls kind (l1 ++ l2) = calls kind l1 ++ calls kind l2.
Proof. apply List.filter_app. Qed.

Lemma calls_items_log kind items :
  (∀ args, kind (Stdout args) = false) →
  calls kind (items_log items) = [].
Proof.
  intros Hk. unfold items_log.
  induction items as [|kv items IH]; simpl; [done|].
  by rewrite Hk.
Qed.

Lemma calls_response_log kind v :
  (∀ args, kind (Stdout args) = false) →
  calls kind (response_log v) = [].
Proof. intros Hk. unfold response_log. simpl. by rewrite !Hk. Qed.

Lemma posts_request_log ard pl inputs :
  calls is_post (request_log ard pl inputs) =
  [HttpPost (request_url inputs) (request_data ard pl inputs) (request_headers inputs)].
Proof. reflexivity. Qed.

Lemma others_request_log kind ard pl inputs :
  (∀ args, kind (Stdout args) = false) →
  (∀ url body headers, kind (HttpPost url body headers) = false) →
  calls kind (request_log ard pl inputs) = [].
Proof. intros Hk Hp. unfold request_log. simpl. by rewrite !Hk, Hp. Qed.

Lemma posts_stage_calls st : calls is_post (stage_calls st) = [].
Proof. by destruct st. Qed.

(** Rewrites the calls of a kind in a log made of the pieces above. *)
Ltac read_log :=
  unfold count;
  repeat progress
    (rewrite ?calls_app;
     rewrite ?posts_request_log, ?posts_stage_calls;
     rewrite ?(others_request_log is_report), ?(others_request_log is_success),
       ?(others_request_log is_failed), ?(others_request_log is_store) by done;
     rewrite ?calls_response_log, ?calls_items_log by done;
     simpl).

(** The [try] body either stops at one of the stages or goes through. *)
Lemma render_total W fs v :
  (∃ e st fs', raises_at W fs v e st fs') ∨ (∃ html, renders W fs v html).
Proof.
  destruct (pd_DataFrame W v) as [e|df] eqn:H1.
  { left. eexists _, _, _. by apply raises_DataFrame. }
  destruct (to_html W df) as [e|html] eqn:H2.
  { left. eexists _, _, _. by eapply raises_to_html. }
  destruct (os_open_w W fs "building_data.html") as [e|] eqn:H3.
  { left. eexists _, _, _. by eapply raises_open. }
  destruct (os_write W "building_data.html" html) as [[e part]|] eqn:H4.
  { left. eexists _, _, _. by eapply raises_write. }
  destruct (sdk_store_file_result W (<["building_data.html" := html]> fs)
              "building_data_html") as [e|] eqn:H5.
  { left. eexists _, _, _. by eapply raises_store. }
  destruct (sdk_mark_run_success W "Building data table successfully generated!")
    as [e|] eqn:H6.
  { left. eexists _, _, _. by eapply raises_success. }
  right. exists html. split; eauto.
Qed.

(** A stage is reached at most once: what the [try] body does is a
    function of the world, the files and the data. *)
Lemma raises_at_stage_success W fs v e st fs' :
  raises_at W fs v e st fs' →
  sdk_mark_run_success W "Building data table successfully generated!" = None →
  st ≠ SuccessReport.
Proof. intros Hr Hs ->. inversion Hr. congruence. Qed.

(** Answering the response adds no request to the log. *)
Lemma handle_response_posts W items s :
  calls is_post (log (handle_response W (JObj items) s).2) = calls is_post (log s).
Proof.
  destruct (truthy (default JNull (assoc "building_data" items))) eqn:Ht.
  - destruct (assoc "building_data" items) as [v|] eqn:Hv; [|discriminate Ht].
    simpl in Ht.
    destruct (render_total W (files s) v) as [(e & st & fs' & Hr)|(html & Hr)].
    + rewrite (handle_raises _ _ _ _ _ _ _ Hv Ht Hr). simpl.
      rewrite !calls_app, posts_stage_calls. simpl. by rewrite app_nil_r.
    + rewrite (handle_returns _ _ _ _ _ Hv Ht Hr). simpl.
      rewrite calls_app. simpl. by rewrite app_nil_r.
  - rewrite (handle_no_data _ _ _ Ht). simpl.
    rewrite calls_app. simpl. by rewrite app_nil_r.
Qed.

(** Every run that has a trigger issues the one request of lines 50-85. *)
Lemma run_posts W ctx inputs fs t ts :
  triggers (automation_run_data ctx) = t :: ts →
  calls is_post (log (run W ctx inputs fs).2) =
  [HttpPost (request_url inputs)
     (request_data (automation_run_data ctx) (payload t) inputs)
     (request_headers inputs)].
Proof.
  intros Htr.
  destruct (http_post_json W (request_url inputs)
              (request_data (automation_run_data ctx) (payload t) inputs)
              (request_headers inputs)) as [e|v] eqn:Hreply.
  - by rewrite (run_post_raises _ _ _ _ _ _ Htr _ Hreply).
  - destruct (is_dict v) eqn:Hd.
    + destruct v; try discriminate Hd.
      rewrite (run_dict _ _ _ _ _ _ Htr _ Hreply), handle_response_posts.
      simpl. by read_log.
    + rewrite (run_not_dict _ _ _ _ _ _ Htr _ Hreply Hd). simpl. by read_log.
Qed.

Section Answered.
Variables (W : World) (ctx : AutomationContext) (inputs : FunctionInputs).
Variables (fs : gmap string string) (t : Trigger) (ts : list Trigger).
Variables (items : list (string * json)) (v : json).
Hypothesis Htriggers : triggers (automation_run_data ctx) = t :: ts.
Hypothesis Hreply :
  http_post_json W (request_url inputs)
    (request_data (automation_run_data ctx) (payload t) inputs)
    (request_headers inputs) = inr (JObj items).
Hypothesis Hdata : assoc "building_data" items = Some v.
Hypothesis Htruthy : truthy v = true.

Let before_try : list event :=
  request_log (automation_run_data ctx) (payload t) inputs ++
  response_log (JObj items) ++ items_log items.

Lemma run_raises e st fs' :
  raises_at W fs v e st fs' →
  run W ctx inputs fs =
  (outcome_of (sdk_mark_run_failed W ("Automation failed: " +:+ exc_str e)),
   mkState fs'
     (before_try ++ stage_calls st ++
      [MarkRunFailed ("Automation failed: " +:+ exc_str e)])).
Proof.
  intros Hr. rewrite (run_dict _ _ _ _ _ _ Htriggers _ Hreply).
  exact (handle_raises W items v e st fs' (mkState fs before_try) Hdata Htruthy Hr).
Qed.

Lemma run_returns html :
  renders W fs v html →
  run W ctx inputs fs =
  (Returned (),
   mkState (<["building_data.html" := html]> fs)
     (before_try ++
      [StoreFileResult "building_data_html";
       MarkRunSuccess "Building data table successfully generated!"])).
Proof.
  intros Hr. rewrite (run_dict _ _ _ _ _ _ Htriggers _ Hreply).
  exact (handle_returns W items v html (mkState fs before_try) Hdata Htruthy Hr).
Qed.
End Answered.

(** ** The paths of the handler on any console *)

Lemma print_eq out args s :
  print out args s =
  (outcome_of (out args), mkState (files s) (log s ++ [Stdout args])).
Proof.
  unfold print, emit, of_error, mbind, M_bind, mret, M_ret, raise. simpl.
  by destruct (out args).
Qed.

Lemma printing_cases out argss :
  (accepted out (map Stdout argss) = true ∧
   printing out argss = (map Stdout argss, None)) ∨
  (∃ evs e, printing out argss = (evs, Some e)).
Proof.
  induction argss as [|args rest IH]; simpl; [by left|].
  destruct (out args) as [e|] eqn:Hout; [right; by eexists _, _|].
  destruct IH as [[Hacc ->]|(evs & e & ->)]; [by left|right; by eexists _, _].
Qed.

Lemma printing_accepted out argss :
  accepted out (map Stdout argss) = true →
  printing out argss = (map Stdout argss, None).
Proof.
  induction argss as [|args rest IH]; simpl; [done|].
  destruct (out args); [done|]. intros Hacc. by rewrite (IH Hacc).
Qed.

(** A sequence of prints that stops has made only prints, and the last of
    them is the one that raised. *)
Lemma printing_raises out argss evs e :
  printing out argss = (evs, Some e) →
  (∃ args, In (Stdout args) evs ∧ In args argss ∧ out args = Some e) ∧
  accepted out (map Stdout argss) = false ∧
  ∀ kind, (∀ args, kind (Stdout args) = false) → calls kind evs = [].
Proof.
  revert evs. induction argss as [|args rest IH]; intros evs; simpl; [done|].
  destruct (out args) as [e'|] eqn:Hout.
  - intros [= <- <-]. split; [|split; [done|]].
    + exists args. split; [by left|]. split; [by left|done].
    + intros kind Hk. unfold calls. simpl. by rewrite Hk.
  - destruct (printing out rest) as [evs' r] eqn:Hrest. simpl.
    intros [= <- ->]. destruct (IH evs' eq_refl) as ((a & Hin & Hin' & Ha) & Hacc & Hk).
    split; [|split; [done|]].
    + exists a. split; [by right|]. split; [by right|done].
    + intros kind Hkind. unfold calls. simpl. rewrite Hkind. by apply Hk.
Qed.

Lemma for_print_on {A : Type} out (f : A → list printed) (xs : list A) (s : state) :
  for_ xs (λ x, print out (f x)) s =
  (outcome_of (printing out (map f xs)).2,
   mkState (files s) (log s ++ (printing out (map f xs)).1)).
Proof.
  revert s. induction xs as [|x xs IH]; intros s; simpl.
  - destruct s. unfold mret, M_ret. simpl. by rewrite app_nil_r.
  - unfold mbind, M_bind. cbv beta. rewrite print_eq.
    destruct (out (f x)) as [e|]; simpl; [done|].
    rewrite IH. simpl. by rewrite <- app_assoc.
Qed.

Lemma accepted_app out l1 l2 :
  accepted out (l1 ++ l2) = accepted out l1 && accepted out l2.
Proof. apply forallb_app. Qed.

Lemma request_log_prints ard pl inputs :
  request_log ard pl inputs =
  map Stdout (request_prints inputs) ++
  [HttpPost (request_url inputs) (request_data ard pl inputs) (request_headers inputs)].
Proof. reflexivity. Qed.

Lemma accepted_request_log out ard pl inputs :
  accepted out (request_log ard pl inputs) =
  accepted out (map Stdout (request_prints inputs)).
Proof.
  rewrite request_log_prints, accepted_app. simpl. by rewrite andb_true_r.
Qed.

Lemma items_log_prints items : items_log items = map Stdout (items_prints items).
Proof. unfold items_log, items_prints. by rewrite map_map. Qed.

Lemma accepted_log_before_if out ctx inputs t items :
  accepted out (log_before_if ctx inputs t items) = true ↔
  accepted out (request_log (automation_run_data ctx) (payload t) inputs) = true ∧
  accepted out (response_log (JObj items)) = true ∧
  accepted out (items_log items) = true.
Proof.
  unfold log_before_if. rewrite !accepted_app, !andb_true_iff. tauto.
Qed.

(** What the handler does once the reply [v] has come back (lines 88-122). *)
Lemma after_reply out W v s :
  (print out [PStr "Response:"; PJson v] ;;
   print out [PStr "Response type:"; PType (type_name v)] ;;
   items ← dict_items v;
   for_ items (λ kv, print out [PItem kv.1 kv.2]) ;;
   handle_response W v) s =
  match (printing out (response_prints v)).2 with
  | Some e =>
      (Raised e, mkState (files s) (log s ++ (printing out (response_prints v)).1))
  | None =>
      match v with
      | JObj items =>
          match (printing out (items_prints items)).2 with
          | Some e =>
              (Raised e,
               mkState (files s)
                 (log s ++ response_log v ++ (printing out (items_prints items)).1))
          | None =>
              handle_response W v
                (mkState (files s) (log s ++ response_log v ++ items_log items))
          end
      | _ => (Raised (no_attribute v "items"),
              mkState (files s) (log s ++ response_log v))
      end
  end.
Proof.
  unfold mbind, M_bind. rewrite !print_eq. simpl.
  destruct (out [PStr "Response:"; PJson v]) as [e|] eqn:H1; simpl; [done|].
  rewrite ?print_eq. simpl.
  destruct (out [PStr "Response type:"; PType (type_name v)]) as [e|] eqn:H2; simpl.
  { by rewrite <- app_assoc. }
  assert (∀ l : list event,
            (l ++ [Stdout [PStr "Response:"; PJson v]]) ++
            [Stdout [PStr "Response type:"; PType (type_name v)]] =
            l ++ response_log v) as Hl.
  { intros l. by rewrite <- app_assoc. }
  destruct v; simpl; rewrite ?Hl; try done.
  rewrite (for_print_on out (λ kv : string * json, [PItem kv.1 kv.2])). simpl.
  fold (items_prints items).
  destruct (printing_cases out (items_prints items)) as [[_ Hp]|(evs & e & Hp)];
    rewrite Hp; simpl.
  - by rewrite <- items_log_prints, <- app_assoc.
  - by rewrite <- app_assoc.
Qed.

Lemma run_on_no_trigger out W ctx inputs fs :
  triggers (automation_run_data ctx) = [] →
  run_on out W ctx inputs fs =
  (Raised (mkException "IndexError" "list index out of range"), mkState fs []).
Proof.
  intros Htr. unfold run_on, automate_function. rewrite Htr. reflexivity.
Qed.

Lemma printing_app out l1 l2 :
  printing out (l1 ++ l2) =
  match (printing out l1).2 with
  | Some e => printing out l1
  | None => ((printing out l1).1 ++ (printing out l2).1, (printing out l2).2)
  end.
Proof.
  induction l1 as [|args rest IH]; simpl.
  - by destruct (printing out l2).
  - destruct (out args); simpl; [done|].
    rewrite IH. by destruct (printing out rest) as [evs [e|]].
Qed.

(** The prints before the request, run from the state [s]. *)
Lemma request_prints_eq out inputs (k : M unit) s :
  (print out [PStr "Headers:"; PDict (request_headers inputs)] ;;
   print out [PStr "Headers type:"; PType "dict"] ;;
   for_ (request_headers inputs) (λ kv, print out [PStr (kv.1 +:+ ": " +:+ kv.2)]) ;;
   print out [PStr "URL:"; PStr (request_url inputs)] ;;
   k) s =
  match (printing out (request_prints inputs)).2 with
  | Some e =>
      (Raised e, mkState (files s) (log s ++ (printing out (request_prints inputs)).1))
  | None =>
      k (mkState (files s) (log s ++ map Stdout (request_prints inputs)))
  end.
Proof.
  unfold request_prints.
  generalize (request_headers inputs) as hs. intros hs.
  set (f := λ kv : string * string, [PStr (kv.1 +:+ ": " +:+ kv.2)]).
  cbn [app printing].
  unfold mbind at 1, M_bind at 1. rewrite print_eq.
  destruct (out [PStr "Headers:"; PDict hs]); simpl; [done|].
  unfold mbind at 1, M_bind at 1. rewrite print_eq.
  destruct (out [PStr "Headers type:"; PType "dict"]); simpl.
  { by rewrite <- app_assoc. }
  unfold mbind at 1, M_bind at 1.
  rewrite (for_print_on out f hs), printing_app. simpl.
  destruct (printing_cases out (map f hs)) as [[_ Hp]|(evs & e & Hp)];
    rewrite Hp; simpl.
  2:{ by rewrite <- !app_assoc. }
  unfold mbind at 1, M_bind at 1. rewrite print_eq. simpl.
  destruct (out [PStr "URL:"; PStr (request_url inputs)]); simpl.
  - by rewrite <- !app_assoc.
  - rewrite map_app. simpl. by rewrite <- !app_assoc.
Qed.

(** What the handler does up to the request (lines 46-85). *)
Lemma run_on_request out W ctx inputs fs t ts :
  triggers (automation_run_data ctx) = t :: ts →
  run_on out W ctx inputs fs =
  match (printing out (request_prints inputs)).2 with
  | Some e => (Raised e, mkState fs (printing out (request_prints inputs)).1)
  | None =>
      (response ← of_sum (reply_to W ctx inputs t);
       print out [PStr "Response:"; PJson response] ;;
       print out [PStr "Response type:"; PType (type_name response)] ;;
       items ← dict_items response;
       for_ items (λ kv, print out [PItem kv.1 kv.2]) ;;
       handle_response W response)
      (mkState fs (request_log (automation_run_data ctx) (payload t) inputs))
  end.
Proof.
  intros Htr. unfold run_on, automate_function. rewrite Htr.
  unfold list_getitem. change ((t :: ts) !! 0) with (Some t).
  unfold mbind at 1, M_bind at 1. unfold mret at 1, M_ret at 1.
  rewrite request_prints_eq. cbn [files log app].
  destruct ((printing out (request_prints inputs)).2); [done|].
  unfold requests_post_json, json_loads_dumps, reply_to.
  unfold mbind at 1, M_bind at 1. unfold mbind at 1, M_bind at 1.
  unfold emit. cbn [files log].
  by rewrite <- (request_log_prints (automation_run_data ctx) (payload t) inputs).
Qed.

(** Every run, on any console, takes one of the nine exits. *)
Lemma run_on_cases out W ctx inputs fs :
  run_path_on out W ctx inputs fs (run_on out W ctx inputs fs).
Proof.
  destruct (triggers (automation_run_data ctx)) as [|t ts] eqn:Htr.
  { rewrite (run_on_no_trigger out W ctx inputs fs Htr). by apply on_no_trigger. }
  rewrite (run_on_request out W ctx inputs fs t ts Htr).
  destruct (printing_cases out (request_prints inputs)) as [[Hreq Hp]|(evs & e & Hp)];
    rewrite Hp; cbn [fst snd].
  2:{ by eapply on_request_print_raises. }
  rewrite <- (accepted_request_log out (automation_run_data ctx) (payload t) inputs)
    in Hreq.
  unfold mbind at 1, M_bind at 1.
  destruct (reply_to W ctx inputs t) as [e|v] eqn:Hreply; cbn [of_sum].
  { unfold raise. by eapply on_post_raises. }
  unfold mret at 1, M_ret at 1. rewrite after_reply. cbn [files log].
  destruct (printing_cases out (response_prints v)) as [[Hresp Hp2]|(evs & e & Hp2)];
    rewrite Hp2; cbn [fst snd].
  2:{ by eapply on_response_print_raises. }
  change (map Stdout (response_prints v)) with (response_log v) in Hresp.
  destruct (is_dict v) eqn:Hd.
  2:{ destruct v; try discriminate Hd; by eapply on_not_dict. }
  destruct v as [| | | | | |items]; try discriminate Hd.
  destruct (printing_cases out (items_prints items)) as [[Hitems Hp3]|(evs & e & Hp3)];
    rewrite Hp3; cbn [fst snd].
  2:{ by eapply on_item_print_raises. }
  rewrite <- items_log_prints in Hitems.
  assert (accepted out (log_before_if ctx inputs t items) = true) as Hall.
  { by apply accepted_log_before_if. }
  destruct (truthy (default JNull (assoc "building_data" items))) eqn:Ht.
  2:{ rewrite (handle_no_data _ _ _ Ht). by eapply on_no_data. }
  destruct (assoc "building_data" items) as [v|] eqn:Hv; [|discriminate Ht].
  simpl in Ht.
  destruct (render_total W fs v) as [(e & st & fs' & Hr)|(html & Hr)].
  - rewrite (handle_raises W items v e st fs' (mkState fs _) Hv Ht Hr).
    cbn [files log]. by eapply on_raises.
  - rewrite (handle_returns W items v html (mkState fs _) Hv Ht Hr).
    cbn [files log]. by eapply on_returns.
Qed.

Lemma accepted_accepting l : accepted accepting l = true.
Proof. induction l as [|[] l IH]; simpl; done. Qed.

(** Splits a goal about [run_on out W ctx inputs fs] into the nine exits. *)
Ltac by_exit_on out W ctx inputs fs :=
  let Hp := fresh "Hpath" in
  pose proof (run_on_cases out W ctx inputs fs) as Hp;
  destruct Hp; cbn [fst snd files log].

(** Identifies the first trigger of two readings of the same list. *)
Ltac same_trigger :=
  repeat match goal with
  | H1 : triggers ?c = [], H2 : triggers ?c = _ :: _ |- _ =>
      rewrite H1 in H2; discriminate H2
  | H1 : triggers ?c = ?t1 :: ?ts1, H2 : triggers ?c = ?t2 :: ?ts2 |- _ =>
      first [constr_eq t1 t2; fail 1
            | rewrite H1 in H2; injection H2 as ? ?; subst]
  end.

(** Identifies two readings of the reply to the same request. *)
Ltac same_reply :=
  repeat match goal with
  | H1 : reply_to ?W ?c ?i ?t = ?r1, H2 : reply_to ?W ?c ?i ?t = ?r2 |- _ =>
      first [constr_eq r1 r2; fail 1
            | rewrite H1 in H2; first [discriminate H2 | injection H2 as ?; subst]]
  end.

(** A print that the console takes does not raise. *)
Lemma request_print_refuted out ard pl inputs evs e :
  printing out (request_prints inputs) = (evs, Some e) →
  accepted out (request_log ard pl inputs) = true →
  False.
Proof.
  intros Hp Ha. apply printing_raises in Hp as (_ & Hf & _).
  rewrite accepted_request_log in Ha. congruence.
Qed.

Lemma response_print_refuted out v evs e :
  printing out (response_prints v) = (evs, Some e) →
  accepted out (response_log v) = true →
  False.
Proof.
  intros Hp Ha. apply printing_raises in Hp as (_ & Hf & _).
  change (map Stdout (response_prints v)) with (response_log v) in Hf. congruence.
Qed.

Lemma item_print_refuted out items evs e :
  printing out (items_prints items) = (evs, Some e) →
  accepted out (items_log items) = true →
  False.
Proof.
  intros Hp Ha. apply printing_raises in Hp as (_ & Hf & _).
  rewrite items_log_prints in Ha. congruence.
Qed.

(** Closes the exits that the hypotheses of the goal rule out. *)
Ltac refute_exit :=
  same_trigger; same_reply;
  repeat match goal with
  | H : accepted _ (log_before_if _ _ _ _) = true |- _ =>
      apply accepted_log_before_if in H as (? & ? & ?)
  | H : accepted _ (_ ++ _) = true |- _ =>
      rewrite accepted_app in H; apply andb_true_iff in H as [? ?]
  end;
  try match goal with
  | Hp : printing ?out (request_prints _) = (_, Some _),
    Ha : accepted ?out (request_log _ _ _) = true |- _ =>
      destruct (request_print_refuted _ _ _ _ _ _ Hp Ha)
  | Hp : printing ?out (response_prints _) = (_, Some _),
    Ha : accepted ?out (response_log _) = true |- _ =>
      destruct (response_print_refuted _ _ _ _ Hp Ha)
  | Hp : printing ?out (items_prints _) = (_, Some _),
    Ha : accepted ?out (items_log _) = true |- _ =>
      destruct (item_print_refuted _ _ _ _ Hp Ha)
  | H : is_dict (JObj _) = false |- _ => discriminate H
  end.

(** On any console, a run that gets through the prints of lines 73-82 issues
    the one request of lines 50-85, and no other. *)
Lemma run_on_posts out W ctx inputs fs t ts :
  triggers (automation_run_data ctx) = t :: ts →
  accepted out (request_log (automation_run_data ctx) (payload t) inputs) = true →
  calls is_post (log (run_on out W ctx inputs fs).2) =
  [HttpPost (request_url inputs)
     (request_data (automation_run_data ctx) (payload t) inputs)
     (request_headers inputs)].
Proof.
  intros Htr Hreq.
  by_exit_on out W ctx inputs fs; refute_exit; unfold log_before_if;
    try match goal with
    | Hp : printing _ _ = (_, Some _) |- _ =>
        apply printing_raises in Hp as (_ & _ & Hp);
        rewrite ?calls_app, (Hp is_post) by done
    end;
    try destruct st; by read_log.
Qed.

(** Answering the reply only adds to the log. *)
Lemma handle_response_log W items s :
  ∃ l, log (handle_response W (JObj items) s).2 = log s ++ l.
Proof.
  destruct (truthy (default JNull (assoc "building_data" items))) eqn:Ht.
  2:{ rewrite (handle_no_data _ _ _ Ht). by eexists. }
  destruct (assoc "building_data" items) as [v|] eqn:Hv; [|discriminate Ht].
  simpl in Ht.
  destruct (render_total W (files s) v) as [(e & st & fs' & Hr)|(html & Hr)].
  - rewrite (handle_raises _ _ _ _ _ _ _ Hv Ht Hr). by eexists.
  - rewrite (handle_returns _ _ _ _ _ Hv Ht Hr). by eexists.
Qed.

(** Standard output bears on a run only through the prints it refuses: on a
    console that takes every print the run makes, the run is the one in which
    every print goes through.  So what is proved of [run] holds of the run on
    any console, as long as the prints made there go through. *)
Lemma run_on_accepted out W ctx inputs fs :
  accepted out (log (run W ctx inputs fs).2) = true →
  run_on out W ctx inputs fs = run W ctx inputs fs.
Proof.
  destruct (triggers (automation_run_data ctx)) as [|t ts] eqn:Htr.
  { intros _. by rewrite (run_on_no_trigger _ W ctx inputs fs Htr),
                         (run_no_trigger W ctx inputs fs Htr). }
  assert (∀ l, accepted out
                 (request_log (automation_run_data ctx) (payload t) inputs ++ l) = true →
               printing out (request_prints inputs) =
                 (map Stdout (request_prints inputs), None) ∧
               accepted out l = true) as Hrequest.
  { intros l. rewrite accepted_app, andb_true_iff, accepted_request_log.
    intros (Hreq & Hl). split; [by apply printing_accepted|done]. }
  rewrite (run_on_request out W ctx inputs fs t ts Htr).
  destruct (reply_to W ctx inputs t) as [e|v] eqn:Hreply.
  { rewrite (run_post_raises _ _ _ _ _ _ Htr _ Hreply). cbn [snd log]. intros Ha.
    rewrite <- (app_nil_r (request_log _ _ _)) in Ha.
    apply Hrequest in Ha as [-> _]. reflexivity. }
  unfold mbind at 1, M_bind at 1. cbn [of_sum]. unfold mret at 1, M_ret at 1.
  rewrite after_reply. cbn [files log].
  destruct (is_dict v) eqn:Hd.
  2:{ rewrite (run_not_dict _ _ _ _ _ _ Htr _ Hreply Hd). cbn [snd log]. intros Ha.
      apply Hrequest in Ha as [-> Hresp]. cbn [snd].
      rewrite (printing_accepted out (response_prints v) Hresp). cbn [snd].
      by destruct v. }
  destruct v as [| | | | | |items]; try discriminate Hd.
  rewrite (run_dict _ _ _ _ _ _ Htr _ Hreply).
  destruct (handle_response_log W items
              (mkState fs (request_log (automation_run_data ctx) (payload t) inputs ++
                           response_log (JObj items) ++ items_log items)))
    as [l ->].
  cbn [log]. rewrite <- !app_assoc. intros Ha.
  apply Hrequest in Ha as [-> Ha]. cbn [snd].
  rewrite accepted_app, andb_true_iff in Ha. destruct Ha as [Hresp Ha].
  rewrite (printing_accepted out (response_prints (JObj items)) Hresp). cbn [snd].
  rewrite accepted_app, andb_true_iff in Ha. destruct Ha as [Hitems _].
  rewrite items_log_prints in Hitems.
  by rewrite (printing_accepted out _ Hitems).
Qed.

(** ** The model on small inputs *)

Example truthy_values :
  map truthy
    [JNull; JBool false; JInt 0; JFloat (S754_zero true); JStr ""; JArr []; JObj [];
     JBool true; JInt (-1); JFloat S754_nan; JStr "0"; JArr [JNull]; demo_table]
  = [false; false; false; false; false; false; false;
     true; true; true; true; true; true].
Proof. reflexivity. Qed.

Example source_url_demo :
  source_url (automation_run_data demo_context) (mkTriggerPayload "model7" "version3")
  = "https://app.speckle.systems/projects/proj1/models/model7@version3".
Proof. reflexivity. Qed.

Example request_url_demo :
  request_url demo_inputs = "https://mep.example/api/from_datafusr".
Proof. reflexivity. Qed.

(** On a platform that wants the registered file to exist, the rendering
    run stops at the registration. *)
Example demo_registration_refused :
  raises_at (demo_world (inr (JObj [("building_data", demo_table)])) store_existing)
    ∅ demo_table (mkException "ValueError" "The given file path doesn't exist")
    FileRegistration (<["building_data.html" := demo_html]> ∅).
Proof.
  apply (raises_store
           (demo_world (inr (JObj [("building_data", demo_table)])) store_existing)
           ∅ demo_table _ demo_table demo_html); reflexivity.
Qed.

(** A UTF-8 console takes a surrogate that sits inside a [dict], which is
    shown escaped, and refuses it in the f-string of line 91 and in a bare
    string. *)
Example utf8_stdout_on_surrogates :
  utf8_stdout [PStr "Response:"; PJson surrogate_note] = None ∧
  utf8_stdout [PItem "note" (JStr lone_surrogate)] ≠ None ∧
  utf8_stdout [PStr "Response:"; PJson surrogate_text] ≠ None ∧
  accepted utf8_stdout (request_log (automation_run_data demo_context)
                          (payload demo_trigger) demo_inputs) = true.
Proof. repeat split; done. Qed.

(** ** The claims

    A theorem stated on [run] speaks of the runs whose prints all go
    through; by [run_on_accepted] these are the runs on any console that
    takes the prints made.  A theorem stated on [run_on] holds on every
    console, with the prints it needs as hypotheses. *)

(** C10.  When the run data of the context has an empty [triggers] list,
    reading [triggers[0]] (line 47) raises [IndexError] out of the handler
    before anything else happens: the log stays empty, so no HTTP request is
    issued and no outcome is reported, and the files are untouched. *)
Theorem empty_triggers_raise_IndexError W ctx inputs fs :
  triggers (automation_run_data ctx) = [] →
  (run W ctx inputs fs).1 = Raised (mkException "IndexError" "list index out of range") ∧
  log (run W ctx inputs fs).2 = [] ∧
  files (run W ctx inputs fs).2 = fs.
Proof.
  intros Htr. by rewrite (run_no_trigger W ctx inputs fs Htr).
Qed.

Lemma empty_triggers_raise_IndexError_witness :
  (run (demo_world (inr (JObj [("building_data", demo_table)])) store_any)
     untriggered_context demo_inputs ∅).1
  = Raised (mkException "IndexError" "list index out of range") ∧
  log (run (demo_world (inr (JObj [("building_data", demo_table)])) store_any)
         untriggered_context demo_inputs ∅).2 = [] ∧
  files (run (demo_world (inr (JObj [("building_data", demo_table)])) store_any)
           untriggered_context demo_inputs ∅).2 = ∅.
Proof.
  apply (empty_triggers_raise_IndexError
           (demo_world (inr (JObj [("building_data", demo_table)])) store_any)
           untriggered_context demo_inputs ∅).
  reflexivity.
Defined.

(** C3.  When the POST call of line 85 raises (the transport fails, or the
    reply is not JSON), that very exception leaves the handler: the run ends
    raising it, neither [mark_run_success] nor [mark_run_failed] has been
    called, and no file has been touched. *)
Theorem post_error_propagates W ctx inputs fs t ts e :
  triggers (automation_run_data ctx) = t :: ts →
  http_post_json W (request_url inputs)
    (request_data (automation_run_data ctx) (payload t) inputs)
    (request_headers inputs) = inl e →
  (run W ctx inputs fs).1 = Raised e ∧
  calls is_report (log (run W ctx inputs fs).2) = [] ∧
  files (run W ctx inputs fs).2 = fs.
Proof.
  intros Htr Hreply.
  rewrite (run_post_raises _ _ _ _ _ _ Htr _ Hreply). simpl.
  split; [done|]. split; [|done]. by read_log.
Qed.

Lemma post_error_propagates_witness :
  (run (demo_world (inl connection_error) store_any) demo_context demo_inputs ∅).1
  = Raised connection_error ∧
  calls is_report
    (log (run (demo_world (inl connection_error) store_any)
            demo_context demo_inputs ∅).2) = [] ∧
  files (run (demo_world (inl connection_error) store_any)
           demo_context demo_inputs ∅).2 = ∅.
Proof.
  apply (post_error_propagates (demo_world (inl connection_error) store_any)
           demo_context demo_inputs ∅
           (mkTrigger (mkTriggerPayload "model7" "version3")) [] connection_error);
    reflexivity.
Defined.

(** C8, as the code has it.  When the reply parses as JSON but is not an
    object (a list, a string, a number, [null], ...), an unhandled exception
    leaves the handler before [building_data] is looked at on line 94, so no
    file is written and no outcome is reported.  When the prints of lines
    88-89 go through, it is the [AttributeError] of [response.items()] on
    line 90, and the log ends with those two prints; otherwise it is the
    error of the print that raised. *)
Theorem non_object_reply_raises out W ctx inputs fs t ts v :
  triggers (automation_run_data ctx) = t :: ts →
  accepted out (request_log (automation_run_data ctx) (payload t) inputs) = true →
  http_post_json W (request_url inputs)
    (request_data (automation_run_data ctx) (payload t) inputs)
    (request_headers inputs) = inr v →
  is_dict v = false →
  ∃ e,
    (run_on out W ctx inputs fs).1 = Raised e ∧
    calls is_report (log (run_on out W ctx inputs fs).2) = [] ∧
    files (run_on out W ctx inputs fs).2 = fs ∧
    (accepted out (response_log v) = true →
     e = no_attribute v "items" ∧
     log (run_on out W ctx inputs fs).2 =
       request_log (automation_run_data ctx) (payload t) inputs ++ response_log v) ∧
    (accepted out (response_log v) = false →
     ∃ args, In (Stdout args) (response_log v) ∧ out args = Some e).
Proof.
  intros Htr Hreq Hreply Hd.
  change (reply_to W ctx inputs t = inr v) in Hreply.
  by_exit_on out W ctx inputs fs; refute_exit.
  - match goal with
    | Hp : printing out (response_prints ?w) = (?evs, Some ?e') |- _ =>
        exists e'; split; [done|];
        pose proof Hp as Hraise;
        apply printing_raises in Hp as ((args & Hin & Hargs & Hout) & Hf & Hk)
    end.
    split; [|split; [done|split]].
    + rewrite calls_app, (Hk is_report), (others_request_log is_report) by done.
      done.
    + intros Ha. destruct (response_print_refuted _ _ _ _ Hraise Ha).
    + intros _. exists args. split; [|done].
      exact (in_map Stdout (response_prints _) args Hargs).
  - eexists. split; [done|].
    split; [by read_log|]. split; [done|]. split; [done|].
    intros Hf. congruence.
Qed.

Lemma non_object_reply_raises_witness :
  ∃ e,
    (run_on utf8_stdout (demo_world (inr (JArr [demo_table])) store_any)
       demo_context demo_inputs ∅).1 = Raised e ∧
    calls is_report
      (log (run_on utf8_stdout (demo_world (inr (JArr [demo_table])) store_any)
              demo_context demo_inputs ∅).2) = [] ∧
    files (run_on utf8_stdout (demo_world (inr (JArr [demo_table])) store_any)
             demo_context demo_inputs ∅).2 = ∅ ∧
    (accepted utf8_stdout (response_log (JArr [demo_table])) = true →
     e = no_attribute (JArr [demo_table]) "items" ∧
     log (run_on utf8_stdout (demo_world (inr (JArr [demo_table])) store_any)
            demo_context demo_inputs ∅).2 =
       request_log (automation_run_data demo_context) (payload demo_trigger)
         demo_inputs ++ response_log (JArr [demo_table])) ∧
    (accepted utf8_stdout (response_log (JArr [demo_table])) = false →
     ∃ args, In (Stdout args) (response_log (JArr [demo_table])) ∧
             utf8_stdout args = Some e).
Proof.
  apply (non_object_reply_raises utf8_stdout
           (demo_world (inr (JArr [demo_table])) store_any)
           demo_context demo_inputs ∅ demo_trigger [] (JArr [demo_table]));
    reflexivity.
Defined.

(** C8, as the claim words it, fails.  On the reply ["\ud800"], a JSON string
    and so not an object, a UTF-8 standard output refuses the print of line
    88: the exception that leaves the handler is its [UnicodeEncodeError],
    not an error raised while iterating the items, and the log ends with that
    print, before line 89. *)
Lemma surrogate_text_raises_in_print :
  is_dict surrogate_text = false ∧
  (run_on utf8_stdout (demo_world (inr surrogate_text) store_any)
     demo_context demo_inputs ∅).1 ≠ Raised (no_attribute surrogate_text "items") ∧
  (run_on utf8_stdout (demo_world (inr surrogate_text) store_any)
     demo_context demo_inputs ∅).1 =
    Raised (mkException "UnicodeEncodeError"
              "'utf-8' codec can't encode: surrogates not allowed") ∧
  log (run_on utf8_stdout (demo_world (inr surrogate_text) store_any)
         demo_context demo_inputs ∅).2 =
    request_log (automation_run_data demo_context) (payload demo_trigger) demo_inputs ++
    [Stdout [PStr "Response:"; PJson surrogate_text]].
Proof.
  split; [reflexivity|]. split; [|split; reflexivity].
  vm_compute. discriminate.
Qed.

(** C4, as the code has it.  When the reply is a JSON object whose
    [building_data] is absent or falsy and the prints of the handler up to
    line 91 all go through, the only outcome reported is [mark_run_failed]
    with the message "Automation failed: No building data could be
    retrieved!": [mark_run_success] is not called, [store_file_result] is not
    called, and the files are as they were. *)
Theorem no_building_data_reported out W ctx inputs fs t ts items :
  triggers (automation_run_data ctx) = t :: ts →
  http_post_json W (request_url inputs)
    (request_data (automation_run_data ctx) (payload t) inputs)
    (request_headers inputs) = inr (JObj items) →
  accepted out (log_before_if ctx inputs t items) = true →
  (assoc "building_data" items = None ∨
   ∃ v, assoc "building_data" items = Some v ∧ truthy v = false) →
  calls is_report (log (run_on out W ctx inputs fs).2) =
    [MarkRunFailed "Automation failed: No building data could be retrieved!"] ∧
  calls is_success (log (run_on out W ctx inputs fs).2) = [] ∧
  calls is_store (log (run_on out W ctx inputs fs).2) = [] ∧
  files (run_on out W ctx inputs fs).2 = fs.
Proof.
  intros Htr Hreply Hprints Hdata.
  change (reply_to W ctx inputs t = inr (JObj items)) in Hreply.
  assert (truthy (default JNull (assoc "building_data" items)) = false) as Hf.
  { destruct Hdata as [->|(v & -> & Hv)]; done. }
  by_exit_on out W ctx inputs fs; refute_exit; unfold log_before_if.
  - repeat split; try done; by read_log.
  - match goal with H : assoc _ _ = Some _ |- _ => rewrite H in Hf end.
    simpl in Hf. congruence.
  - match goal with H : assoc _ _ = Some _ |- _ => rewrite H in Hf end.
    simpl in Hf. congruence.
Qed.

Lemma no_building_data_reported_witness :
  calls is_report
    (log (run_on utf8_stdout
            (demo_world (inr (JObj [("status", JStr "ok"); ("building_data", JArr [])]))
               store_any) demo_context demo_inputs ∅).2) =
    [MarkRunFailed "Automation failed: No building data could be retrieved!"] ∧
  calls is_success
    (log (run_on utf8_stdout
            (demo_world (inr (JObj [("status", JStr "ok"); ("building_data", JArr [])]))
               store_any) demo_context demo_inputs ∅).2) = [] ∧
  calls is_store
    (log (run_on utf8_stdout
            (demo_world (inr (JObj [("status", JStr "ok"); ("building_data", JArr [])]))
               store_any) demo_context demo_inputs ∅).2) = [] ∧
  files (run_on utf8_stdout
           (demo_world (inr (JObj [("status", JStr "ok"); ("building_data", JArr [])]))
              store_any) demo_context demo_inputs ∅).2 = ∅.
Proof.
  apply (no_building_data_reported utf8_stdout
           (demo_world (inr (JObj [("status", JStr "ok"); ("building_data", JArr [])]))
              store_any)
           demo_context demo_inputs ∅ demo_trigger []
           [("status", JStr "ok"); ("building_data", JArr [])]);
    [reflexivity | reflexivity | reflexivity |].
  right. exists (JArr []). split; reflexivity.
Defined.

(** C4, as the claim words it, fails.  The reply [{"note": "\ud800"}] is a
    JSON object without [building_data]; on a UTF-8 standard output the print
    of line 91 raises [UnicodeEncodeError] for its one item, the exception
    leaves the handler, and [mark_run_failed] is never called. *)
Lemma surrogate_note_reports_nothing :
  assoc "building_data" [("note", JStr lone_surrogate)] = None ∧
  calls is_report
    (log (run_on utf8_stdout (demo_world (inr surrogate_note) store_any)
            demo_context demo_inputs ∅).2) ≠
    [MarkRunFailed "Automation failed: No building data could be retrieved!"] ∧
  calls is_report
    (log (run_on utf8_stdout (demo_world (inr surrogate_note) store_any)
            demo_context demo_inputs ∅).2) = [] ∧
  (run_on utf8_stdout (demo_world (inr surrogate_note) store_any)
     demo_context demo_inputs ∅).1 =
    Raised (mkException "UnicodeEncodeError"
              "'utf-8' codec can't encode: surrogates not allowed").
Proof.
  split; [reflexivity|]. split; [|split; reflexivity].
  vm_compute. discriminate.
Qed.

(** C5.  When [building_data] is truthy and the [try] body raises [e] while
    building the dataframe, converting it to HTML, opening or writing the
    file, or registering it, the [except] clause takes [e]: the only outcome
    reported is [mark_run_failed] with "Automation failed: " followed by the
    text of [e], [mark_run_success] is not called, and [e] does not leave the
    handler: the run ends the way that [mark_run_failed] call ends, so it
    returns normally whenever the call does. *)
Theorem render_error_reported W ctx inputs fs t ts items v e st fs' :
  triggers (automation_run_data ctx) = t :: ts →
  http_post_json W (request_url inputs)
    (request_data (automation_run_data ctx) (payload t) inputs)
    (request_headers inputs) = inr (JObj items) →
  assoc "building_data" items = Some v →
  truthy v = true →
  raises_at W fs v e st fs' →
  st ≠ SuccessReport →
  (run W ctx inputs fs).1 =
    outcome_of (sdk_mark_run_failed W ("Automation failed: " +:+ exc_str e)) ∧
  calls is_report (log (run W ctx inputs fs).2) =
    [MarkRunFailed ("Automation failed: " +:+ exc_str e)] ∧
  calls is_success (log (run W ctx inputs fs).2) = [].
Proof.
  intros Htr Hreply Hv Ht Hr Hst.
  rewrite (run_raises _ _ _ _ _ _ _ _ Htr Hreply Hv Ht _ _ _ Hr). simpl.
  split; [done|].
  destruct st; try done; split; by read_log.
Qed.

Lemma render_error_reported_witness :
  (run (demo_world (inr (JObj [("building_data", JStr "n/a")])) store_any)
     demo_context demo_inputs ∅).1 = Returned () ∧
  calls is_report
    (log (run (demo_world (inr (JObj [("building_data", JStr "n/a")])) store_any)
            demo_context demo_inputs ∅).2) =
    [MarkRunFailed "Automation failed: DataFrame constructor not properly called!"] ∧
  calls is_success
    (log (run (demo_world (inr (JObj [("building_data", JStr "n/a")])) store_any)
            demo_context demo_inputs ∅).2) = [].
Proof.
  apply (render_error_reported
           (demo_world (inr (JObj [("building_data", JStr "n/a")])) store_any)
           demo_context demo_inputs ∅
           (mkTrigger (mkTriggerPayload "model7" "version3")) []
           [("building_data", JStr "n/a")] (JStr "n/a")
           (mkException "ValueError" "DataFrame constructor not properly called!")
           DataFrameConstruction ∅);
    [reflexivity | reflexivity | reflexivity | reflexivity | | discriminate].
  apply raises_DataFrame. reflexivity.
Defined.

(** C9.  The [try] body is not atomic.  When the file has been written and
    [store_file_result] or [mark_run_success] then raises [e],
    [mark_run_failed] is called with "Automation failed: " followed by the
    text of [e], and the run ends with building_data.html on disk, holding
    the rendered table: nothing removes it. *)
Theorem written_file_survives_failure W ctx inputs fs t ts items v e st fs' :
  triggers (automation_run_data ctx) = t :: ts →
  http_post_json W (request_url inputs)
    (request_data (automation_run_data ctx) (payload t) inputs)
    (request_headers inputs) = inr (JObj items) →
  assoc "building_data" items = Some v →
  truthy v = true →
  raises_at W fs v e st fs' →
  st = FileRegistration ∨ st = SuccessReport →
  calls is_failed (log (run W ctx inputs fs).2) =
    [MarkRunFailed ("Automation failed: " +:+ exc_str e)] ∧
  ∃ df html,
    pd_DataFrame W v = inr df ∧ to_html W df = inr html ∧
    files (run W ctx inputs fs).2 = <["building_data.html" := html]> fs ∧
    files (run W ctx inputs fs).2 !! "building_data.html" = Some html.
Proof.
  intros Htr Hreply Hv Ht Hr Hst.
  rewrite (run_raises _ _ _ _ _ _ _ _ Htr Hreply Hv Ht _ _ _ Hr). simpl.
  split.
  - destruct Hst as [-> | ->]; by read_log.
  - destruct Hst as [-> | ->]; inversion Hr; subst;
      eexists _, _; repeat split; eauto; apply lookup_insert_eq.
Qed.

Lemma written_file_survives_failure_witness :
  calls is_failed
    (log (run (demo_world (inr (JObj [("building_data", demo_table)])) store_existing)
            demo_context demo_inputs ∅).2) =
    [MarkRunFailed "Automation failed: The given file path doesn't exist"] ∧
  ∃ df html,
    pd_DataFrame (demo_world (inr (JObj [("building_data", demo_table)])) store_existing)
      demo_table = inr df ∧
    to_html (demo_world (inr (JObj [("building_data", demo_table)])) store_existing)
      df = inr html ∧
    files (run (demo_world (inr (JObj [("building_data", demo_table)])) store_existing)
             demo_context demo_inputs ∅).2 = <["building_data.html" := html]> ∅ ∧
    files (run (demo_world (inr (JObj [("building_data", demo_table)])) store_existing)
             demo_context demo_inputs ∅).2 !! "building_data.html" = Some html.
Proof.
  apply (written_file_survives_failure
           (demo_world (inr (JObj [("building_data", demo_table)])) store_existing)
           demo_context demo_inputs ∅
           (mkTrigger (mkTriggerPayload "model7" "version3")) []
           [("building_data", demo_table)] demo_table
           (mkException "ValueError" "The given file path doesn't exist")
           FileRegistration (<["building_data.html" := demo_html]> ∅));
    [reflexivity | reflexivity | reflexivity | reflexivity | | left; reflexivity].
  apply (raises_store
           (demo_world (inr (JObj [("building_data", demo_table)])) store_existing)
           ∅ demo_table _ demo_table demo_html); reflexivity.
Defined.

(** C1.  The success path, on the reply [{"building_data": {"col": [1, 2]}}]
    and a platform that accepts the registration.  The run returns having
    reported success, and building_data.html holds the rendered table; but
    the path handed to [store_file_result] (line 109) is
    "building_data_html", which is not the path of the file written on line
    105 and names no file at all. *)
Theorem success_registers_unwritten_path :
  (run (demo_world (inr (JObj [("building_data", demo_table)])) store_any)
     demo_context demo_inputs ∅).1 = Returned () ∧
  files (run (demo_world (inr (JObj [("building_data", demo_table)])) store_any)
           demo_context demo_inputs ∅).2 !! "building_data.html" = Some demo_html ∧
  calls is_store
    (log (run (demo_world (inr (JObj [("building_data", demo_table)])) store_any)
            demo_context demo_inputs ∅).2) =
    [StoreFileResult "building_data_html"] ∧
  files (run (demo_world (inr (JObj [("building_data", demo_table)])) store_any)
           demo_context demo_inputs ∅).2 !! "building_data_html" = None ∧
  "building_data_html" ≠ "building_data.html" ∧
  calls is_report
    (log (run (demo_world (inr (JObj [("building_data", demo_table)])) store_any)
            demo_context demo_inputs ∅).2) =
    [MarkRunSuccess "Building data table successfully generated!"].
Proof.
  assert (renders (demo_world (inr (JObj [("building_data", demo_table)])) store_any)
            ∅ demo_table demo_html) as Hr.
  { split; try reflexivity. by exists demo_table. }
  rewrite (run_returns
             (demo_world (inr (JObj [("building_data", demo_table)])) store_any)
             demo_context demo_inputs ∅
             (mkTrigger (mkTriggerPayload "model7" "version3")) []
             [("building_data", demo_table)] demo_table
             eq_refl eq_refl eq_refl eq_refl demo_html Hr).
  simpl. by repeat split.
Qed.

(** C6.  Whenever the handler builds its request (the context has a
    trigger), the body is the mapping
    [{datafusr_config: {project_name: "MEPPostprocessingProject",
    source_url: s, speckle_token: t}}], with [t] the unwrapped Speckle token
    and [s] the string "<server>/projects/<project>/models/<model>@<version>"
    made of the context's fields, character for character; and that body is
    the one the run posts. *)
Theorem request_body_as_specified W ctx inputs fs t ts :
  triggers (automation_run_data ctx) = t :: ts →
  request_data (automation_run_data ctx) (payload t) inputs =
    spec_request_body
      (speckle_server_url (automation_run_data ctx))
      (project_id (automation_run_data ctx))
      (model_id (payload t)) (version_id (payload t))
      (get_secret_value (speckle_token inputs)) ∧
  ∃ url headers,
    calls is_post (log (run W ctx inputs fs).2) =
    [HttpPost url
       (spec_request_body
          (speckle_server_url (automation_run_data ctx))
          (project_id (automation_run_data ctx))
          (model_id (payload t)) (version_id (payload t))
          (get_secret_value (speckle_token inputs)))
       headers].
Proof.
  intros Htr.
  assert (request_data (automation_run_data ctx) (payload t) inputs =
          spec_request_body
            (speckle_server_url (automation_run_data ctx))
            (project_id (automation_run_data ctx))
            (model_id (payload t)) (version_id (payload t))
            (get_secret_value (speckle_token inputs))) as Hbody.
  { unfold request_data, spec_request_body, source_url, spec_source_url.
    reflexivity. }
  split; [exact Hbody|].
  exists (request_url inputs), (request_headers inputs).
  by rewrite (run_posts W ctx inputs fs t ts Htr), Hbody.
Qed.

Lemma request_body_as_specified_witness :
  request_data (automation_run_data demo_context)
    (mkTriggerPayload "model7" "version3") demo_inputs =
  JObj [("datafusr_config",
         JObj [("project_name", JStr "MEPPostprocessingProject");
               ("source_url",
                JStr "https://app.speckle.systems/projects/proj1/models/model7@version3");
               ("speckle_token", JStr "speckle-secret")])] ∧
  ∃ url headers,
    calls is_post
      (log (run (demo_world (inr (JObj [("building_data", demo_table)])) store_any)
              demo_context demo_inputs ∅).2) =
    [HttpPost url
       (JObj [("datafusr_config",
               JObj [("project_name", JStr "MEPPostprocessingProject");
                     ("source_url",
                      JStr "https://app.speckle.systems/projects/proj1/models/model7@version3");
                     ("speckle_token", JStr "speckle-secret")])])
       headers].
Proof.
  apply (request_body_as_specified
           (demo_world (inr (JObj [("building_data", demo_table)])) store_any)
           demo_context demo_inputs ∅
           (mkTrigger (mkTriggerPayload "model7" "version3")) []).
  reflexivity.
Defined.

(** C7, as the code has it.  Every invocation whose context has a trigger
    and whose prints before the request (lines 73-82) go through issues
    exactly one POST, to exactly [<api_url>/from_datafusr], with the headers
    [{content-type: application/json, enable-logging: False,
    source-application: RoomBook, return-type: tables, username: <username>,
    token: <api token>}], the logging flag being the string "False" with a
    capital F. *)
Theorem post_url_and_headers out W ctx inputs fs t ts :
  triggers (automation_run_data ctx) = t :: ts →
  accepted out (request_log (automation_run_data ctx) (payload t) inputs) = true →
  ∃ body,
    calls is_post (log (run_on out W ctx inputs fs).2) =
    [HttpPost (get_secret_value (api_url inputs) +:+ "/from_datafusr") body
       [("content-type", "application/json");
        ("enable-logging", "False");
        ("source-application", "RoomBook");
        ("return-type", "tables");
        ("username", username inputs);
        ("token", get_secret_value (api_token inputs))]].
Proof.
  intros Htr Hreq.
  exists (request_data (automation_run_data ctx) (payload t) inputs).
  exact (run_on_posts out W ctx inputs fs t ts Htr Hreq).
Qed.

Lemma post_url_and_headers_witness :
  ∃ body,
    calls is_post
      (log (run_on utf8_stdout (demo_world (inl connection_error) store_any)
              demo_context demo_inputs ∅).2) =
    [HttpPost (get_secret_value (api_url demo_inputs) +:+ "/from_datafusr") body
       [("content-type", "application/json");
        ("enable-logging", "False");
        ("source-application", "RoomBook");
        ("return-type", "tables");
        ("username", username demo_inputs);
        ("token", get_secret_value (api_token demo_inputs))]].
Proof.
  apply (post_url_and_headers utf8_stdout (demo_world (inl connection_error) store_any)
           demo_context demo_inputs ∅ demo_trigger []); reflexivity.
Defined.

(** C7, as the specification words it, fails three ways.  The run of the
    demo inputs posts headers that are not the specified mapping, whose
    logging flag reads "false"; a run whose context has no trigger issues no
    POST at all; and neither does a run whose standard output refuses the
    first print, as an ASCII one does for a user name with an accented
    letter. *)
Lemma posted_headers_differ_from_spec :
  ¬ spec_post demo_inputs
      (run_on utf8_stdout (demo_world demo_reply store_any) demo_context demo_inputs ∅) ∧
  ¬ spec_post demo_inputs
      (run_on utf8_stdout (demo_world demo_reply store_any)
         untriggered_context demo_inputs ∅) ∧
  ¬ spec_post accented_inputs
      (run_on ascii_stdout (demo_world demo_reply store_any)
         demo_context accented_inputs ∅).
Proof.
  split; [|split]; intros (body & headers & Hposts & Hsame).
  - rewrite (run_on_posts utf8_stdout _ demo_context demo_inputs ∅ demo_trigger []
               eq_refl eq_refl) in Hposts.
    injection Hposts as _ <-.
    specialize (Hsame "enable-logging"). discriminate Hsame.
  - vm_compute in Hposts. discriminate Hposts.
  - vm_compute in Hposts. discriminate Hposts.
Qed.

(** C2, as the code has it.  In every run whose context has a trigger and
    whose prints before the request go through, exactly one HTTP POST is
    issued.  If moreover the POST returns a JSON object, the prints of the
    reply (lines 88-91) go through and [mark_run_success] does not itself
    raise, exactly one of [mark_run_success] and [mark_run_failed] is
    called. *)
Theorem one_request_one_report out W ctx inputs fs t ts :
  triggers (automation_run_data ctx) = t :: ts →
  accepted out (request_log (automation_run_data ctx) (payload t) inputs) = true →
  count is_post (log (run_on out W ctx inputs fs).2) = 1 ∧
  ∀ items,
    http_post_json W (request_url inputs)
      (request_data (automation_run_data ctx) (payload t) inputs)
      (request_headers inputs) = inr (JObj items) →
    accepted out (response_log (JObj items) ++ items_log items) = true →
    sdk_mark_run_success W "Building data table successfully generated!" = None →
    count is_success (log (run_on out W ctx inputs fs).2) +
    count is_failed (log (run_on out W ctx inputs fs).2) = 1.
Proof.
  intros Htr Hreq. split.
  { unfold count. by rewrite (run_on_posts out W ctx inputs fs t ts Htr Hreq). }
  intros items Hreply Hprints Hsuccess.
  change (reply_to W ctx inputs t = inr (JObj items)) in Hreply.
  by_exit_on out W ctx inputs fs; refute_exit; unfold log_before_if.
  - by read_log.
  - match goal with
    | Hr : raises_at _ _ _ _ ?st _ |- _ =>
        pose proof (raises_at_stage_success _ _ _ _ _ _ Hr Hsuccess);
        destruct st; try done; by read_log
    end.
  - by read_log.
Qed.

Lemma one_request_one_report_witness :
  count is_post
    (log (run_on utf8_stdout (demo_world demo_reply store_existing)
            demo_context demo_inputs ∅).2) = 1 ∧
  ∀ items,
    http_post_json (demo_world demo_reply store_existing) (request_url demo_inputs)
      (request_data (automation_run_data demo_context) (payload demo_trigger) demo_inputs)
      (request_headers demo_inputs) = inr (JObj items) →
    accepted utf8_stdout (response_log (JObj items) ++ items_log items) = true →
    sdk_mark_run_success (demo_world demo_reply store_existing)
      "Building data table successfully generated!" = None →
    count is_success
      (log (run_on utf8_stdout (demo_world demo_reply store_existing)
              demo_context demo_inputs ∅).2) +
    count is_failed
      (log (run_on utf8_stdout (demo_world demo_reply store_existing)
              demo_context demo_inputs ∅).2) = 1.
Proof.
  apply (one_request_one_report utf8_stdout (demo_world demo_reply store_existing)
           demo_context demo_inputs ∅ demo_trigger []); reflexivity.
Defined.

(** C2, as the specification words it, fails five ways.  When the POST
    raises, one request has been issued and nothing is reported.  When the
    context has no trigger, nothing is issued and nothing reported.  When the
    reply is [{"note": "\ud800"}], a UTF-8 standard output refuses the print
    of line 91 and nothing is reported.  When [mark_run_success] raises,
    both report methods are called.  When standard output refuses the first
    print, nothing is issued and nothing reported. *)
Lemma one_report_one_post_fails :
  ¬ spec_one_report_one_post
      (run_on utf8_stdout (demo_world (inl connection_error) store_any)
         demo_context demo_inputs ∅) ∧
  ¬ spec_one_report_one_post
      (run_on utf8_stdout (demo_world demo_reply store_any)
         untriggered_context demo_inputs ∅) ∧
  ¬ spec_one_report_one_post
      (run_on utf8_stdout (demo_world (inr surrogate_note) store_any)
         demo_context demo_inputs ∅) ∧
  ¬ spec_one_report_one_post
      (run_on utf8_stdout (faulty_world demo_reply None (Some report_refused) None)
         demo_context demo_inputs ∅) ∧
  ¬ spec_one_report_one_post
      (run_on ascii_stdout (demo_world demo_reply store_any)
         demo_context accented_inputs ∅).
Proof.
  repeat split; intros [Hreports Hposts];
    vm_compute in Hreports; discriminate Hreports.
Qed.


(** ** Beyond the claims: the handler as a whole *)

(** Every run whose prints go through takes one of the six exits. *)
Lemma run_cases W ctx inputs fs :
  run_path W ctx inputs fs (run W ctx inputs fs).
Proof.
  destruct (triggers (automation_run_data ctx)) as [|t ts] eqn:Htr.
  { rewrite (run_no_trigger W ctx inputs fs Htr). by apply path_no_trigger. }
  destruct (reply_to W ctx inputs t) as [e|v] eqn:Hreply.
  { rewrite (run_post_raises _ _ _ _ _ _ Htr _ Hreply). by eapply path_post_raises. }
  destruct (is_dict v) eqn:Hd.
  2:{ rewrite (run_not_dict _ _ _ _ _ _ Htr _ Hreply Hd). by eapply path_not_dict. }
  destruct v as [| | | | | |items]; try discriminate Hd.
  destruct (truthy (default JNull (assoc "building_data" items))) eqn:Ht.
  2:{ rewrite (run_dict _ _ _ _ _ _ Htr _ Hreply), (handle_no_data _ _ _ Ht).
      by eapply path_no_data. }
  destruct (assoc "building_data" items) as [v|] eqn:Hv; [|discriminate Ht].
  simpl in Ht.
  destruct (render_total W fs v) as [(e & st & fs' & Hr)|(html & Hr)].
  - rewrite (run_raises _ _ _ _ _ _ _ _ Htr Hreply Hv Ht _ _ _ Hr).
    by eapply path_raises.
  - rewrite (run_returns _ _ _ _ _ _ _ _ Htr Hreply Hv Ht _ Hr).
    by eapply path_returns.
Qed.

(** Splits a goal about [run W ctx inputs fs] into the six exits. *)
Ltac by_exit W ctx inputs fs :=
  let Hp := fresh "Hpath" in
  pose proof (run_cases W ctx inputs fs) as Hp;
  destruct Hp; unfold log_before_if; simpl.

Lemma prefix_append (p s : string) : String.prefix p (p +:+ s) = true.
Proof.
  induction p as [|c p IH]; simpl.
  - by destruct s.
  - destruct (Ascii.ascii_dec c c); [exact IH|done].
Qed.

Lemma in_calls kind ev l : In ev l → kind ev = true → In ev (calls kind l).
Proof. intros Hin Hk. apply List.filter_In. by split. Qed.

(** X1.  The success path in general (lines 94-112).  When the reply carries
    a truthy [building_data] and every step of the [try] body goes through,
    the handler returns normally; building_data.html holds the rendered
    table; [store_file_result] has been called once, with the path
    "building_data_html"; the only outcome reported is the success message;
    and the registration and the report are, in that order, the last two
    things the run does. *)
Theorem success_path W ctx inputs fs t ts items v html :
  triggers (automation_run_data ctx) = t :: ts →
  reply_to W ctx inputs t = inr (JObj items) →
  assoc "building_data" items = Some v →
  truthy v = true →
  renders W fs v html →
  (run W ctx inputs fs).1 = Returned () ∧
  files (run W ctx inputs fs).2 = <["building_data.html" := html]> fs ∧
  calls is_store (log (run W ctx inputs fs).2) =
    [StoreFileResult "building_data_html"] ∧
  calls is_report (log (run W ctx inputs fs).2) =
    [MarkRunSuccess "Building data table successfully generated!"] ∧
  ∃ before,
    log (run W ctx inputs fs).2 =
    before ++ [StoreFileResult "building_data_html";
               MarkRunSuccess "Building data table successfully generated!"].
Proof.
  intros Htr Hreply Hv Ht Hr.
  rewrite (run_returns _ _ _ _ _ _ _ _ Htr Hreply Hv Ht _ Hr).
  cbn [fst snd files log].
  split; [done|]. split; [done|]. split; [by read_log|]. split; [by read_log|].
  by eexists.
Qed.

Lemma success_path_witness :
  (run (demo_world demo_reply store_any) demo_context demo_inputs ∅).1 = Returned () ∧
  files (run (demo_world demo_reply store_any) demo_context demo_inputs ∅).2 =
    <["building_data.html" := demo_html]> ∅ ∧
  calls is_store (log (run (demo_world demo_reply store_any) demo_context demo_inputs ∅).2) =
    [StoreFileResult "building_data_html"] ∧
  calls is_report (log (run (demo_world demo_reply store_any) demo_context demo_inputs ∅).2) =
    [MarkRunSuccess "Building data table successfully generated!"] ∧
  ∃ before,
    log (run (demo_world demo_reply store_any) demo_context demo_inputs ∅).2 =
    before ++ [StoreFileResult "building_data_html";
               MarkRunSuccess "Building data table successfully generated!"].
Proof.
  apply (success_path (demo_world demo_reply store_any) demo_context demo_inputs ∅
           demo_trigger [] [("building_data", demo_table)] demo_table demo_html);
    try reflexivity.
  split; try reflexivity. exists demo_table. split; reflexivity.
Defined.

(** X2.  When everything up to the registration goes through and
    [mark_run_success] itself raises [e] (line 112 is inside the [try]), the
    [except] clause reports a failure on top of it: both report methods are
    called in the same run, success first, then [mark_run_failed] with the
    text of [e]. *)
Theorem failing_success_report_reports_both W ctx inputs fs t ts items v e fs' :
  triggers (automation_run_data ctx) = t :: ts →
  reply_to W ctx inputs t = inr (JObj items) →
  assoc "building_data" items = Some v →
  truthy v = true →
  raises_at W fs v e SuccessReport fs' →
  calls is_report (log (run W ctx inputs fs).2) =
    [MarkRunSuccess "Building data table successfully generated!";
     MarkRunFailed ("Automation failed: " +:+ exc_str e)] ∧
  (run W ctx inputs fs).1 =
    outcome_of (sdk_mark_run_failed W ("Automation failed: " +:+ exc_str e)).
Proof.
  intros Htr Hreply Hv Ht Hr.
  rewrite (run_raises _ _ _ _ _ _ _ _ Htr Hreply Hv Ht _ _ _ Hr). simpl.
  split; [by read_log|done].
Qed.

Lemma failing_success_report_reports_both_witness :
  calls is_report
    (log (run (faulty_world demo_reply None (Some report_refused) None)
            demo_context demo_inputs ∅).2) =
    [MarkRunSuccess "Building data table successfully generated!";
     MarkRunFailed "Automation failed: Failed to report the run status"] ∧
  (run (faulty_world demo_reply None (Some report_refused) None)
     demo_context demo_inputs ∅).1 = Returned ().
Proof.
  apply (failing_success_report_reports_both
           (faulty_world demo_reply None (Some report_refused) None)
           demo_context demo_inputs ∅ demo_trigger []
           [("building_data", demo_table)] demo_table report_refused
           (<["building_data.html" := demo_html]> ∅));
    try reflexivity.
  apply (raises_success (faulty_world demo_reply None (Some report_refused) None)
           ∅ demo_table _ demo_table demo_html); reflexivity.
Defined.

(** X4.  When the [try] body fails before the file is opened for writing
    (building the dataframe, converting it, or [open] itself raises), the
    run leaves the files exactly as they were and never calls
    [store_file_result]. *)
Theorem early_failure_writes_nothing W ctx inputs fs t ts items v e st fs' :
  triggers (automation_run_data ctx) = t :: ts →
  reply_to W ctx inputs t = inr (JObj items) →
  assoc "building_data" items = Some v →
  truthy v = true →
  raises_at W fs v e st fs' →
  st = DataFrameConstruction ∨ st = HtmlConversion ∨ st = FileOpen →
  files (run W ctx inputs fs).2 = fs ∧
  calls is_store (log (run W ctx inputs fs).2) = [].
Proof.
  intros Htr Hreply Hv Ht Hr Hst.
  rewrite (run_raises _ _ _ _ _ _ _ _ Htr Hreply Hv Ht _ _ _ Hr). simpl.
  destruct Hst as [->|[->| ->]]; (split; [by inversion Hr|by read_log]).
Qed.

Lemma early_failure_writes_nothing_witness :
  files (run (demo_world (inr (JObj [("building_data", JInt 7)])) store_any)
           demo_context demo_inputs ∅).2 = ∅ ∧
  calls is_store
    (log (run (demo_world (inr (JObj [("building_data", JInt 7)])) store_any)
            demo_context demo_inputs ∅).2) = [].
Proof.
  apply (early_failure_writes_nothing
           (demo_world (inr (JObj [("building_data", JInt 7)])) store_any)
           demo_context demo_inputs ∅ demo_trigger []
           [("building_data", JInt 7)] (JInt 7)
           (mkException "ValueError" "DataFrame constructor not properly called!")
           DataFrameConstruction ∅);
    try reflexivity.
  - apply raises_DataFrame. reflexivity.
  - left. reflexivity.
Defined.

(** X5.  When [fp.write] raises after [open] succeeded, nothing cleans up:
    the failure is reported with the error's text, [store_file_result] is
    never called, and building_data.html is left behind holding whatever part
    of the table reached it. *)
Theorem failed_write_leaves_partial_file W ctx inputs fs t ts items v e fs' :
  triggers (automation_run_data ctx) = t :: ts →
  reply_to W ctx inputs t = inr (JObj items) →
  assoc "building_data" items = Some v →
  truthy v = true →
  raises_at W fs v e FileWrite fs' →
  calls is_report (log (run W ctx inputs fs).2) =
    [MarkRunFailed ("Automation failed: " +:+ exc_str e)] ∧
  calls is_store (log (run W ctx inputs fs).2) = [] ∧
  ∃ df html part,
    pd_DataFrame W v = inr df ∧ to_html W df = inr html ∧
    os_write W "building_data.html" html = Some (e, part) ∧
    files (run W ctx inputs fs).2 !! "building_data.html" = Some part.
Proof.
  intros Htr Hreply Hv Ht Hr.
  rewrite (run_raises _ _ _ _ _ _ _ _ Htr Hreply Hv Ht _ _ _ Hr). simpl.
  split; [by read_log|]. split; [by read_log|].
  inversion Hr; subst. eexists _, _, _. repeat split; eauto.
  apply lookup_insert_eq.
Qed.

Lemma failed_write_leaves_partial_file_witness :
  calls is_report
    (log (run (faulty_world demo_reply (Some (disk_full, "<table><tr>")) None None)
            demo_context demo_inputs ∅).2) =
    [MarkRunFailed "Automation failed: [Errno 28] No space left on device"] ∧
  calls is_store
    (log (run (faulty_world demo_reply (Some (disk_full, "<table><tr>")) None None)
            demo_context demo_inputs ∅).2) = [] ∧
  ∃ df html part,
    pd_DataFrame (faulty_world demo_reply (Some (disk_full, "<table><tr>")) None None)
      demo_table = inr df ∧
    to_html (faulty_world demo_reply (Some (disk_full, "<table><tr>")) None None) df
      = inr html ∧
    os_write (faulty_world demo_reply (Some (disk_full, "<table><tr>")) None None)
      "building_data.html" html = Some (disk_full, part) ∧
    files (run (faulty_world demo_reply (Some (disk_full, "<table><tr>")) None None)
             demo_context demo_inputs ∅).2 !! "building_data.html" = Some part.
Proof.
  apply (failed_write_leaves_partial_file
           (faulty_world demo_reply (Some (disk_full, "<table><tr>")) None None)
           demo_context demo_inputs ∅ demo_trigger []
           [("building_data", demo_table)] demo_table disk_full
           (<["building_data.html" := "<table><tr>"]> ∅));
    try reflexivity.
  apply (raises_write
           (faulty_world demo_reply (Some (disk_full, "<table><tr>")) None None)
           ∅ demo_table _ demo_table demo_html "<table><tr>"); reflexivity.
Defined.


(** X7.  Once the reply has come back as a JSON object and its prints
    (lines 88-91) have gone through, no exception of the rendering can leave
    the handler: if the platform's [mark_run_failed] returns normally, so
    does the run. *)
Theorem object_reply_returns out W ctx inputs fs t ts items :
  triggers (automation_run_data ctx) = t :: ts →
  reply_to W ctx inputs t = inr (JObj items) →
  accepted out (log_before_if ctx inputs t items) = true →
  (∀ msg, sdk_mark_run_failed W msg = None) →
  (run_on out W ctx inputs fs).1 = Returned ().
Proof.
  intros Htr Hreply Hprints Hfailed.
  by_exit_on out W ctx inputs fs; refute_exit; rewrite ?Hfailed; done.
Qed.

Lemma object_reply_returns_witness :
  (run_on utf8_stdout
     (demo_world (inr (JObj [("building_data", JStr "n/a")])) store_existing)
     demo_context demo_inputs ∅).1 = Returned ().
Proof.
  apply (object_reply_returns utf8_stdout
           (demo_world (inr (JObj [("building_data", JStr "n/a")])) store_existing)
           demo_context demo_inputs ∅ demo_trigger [] [("building_data", JStr "n/a")]);
    reflexivity.
Defined.

(** X8.  An exception leaves the handler from five places only: the
    [IndexError] of an empty trigger list (line 47), the error of the POST
    call (line 85), the [AttributeError] of [items()] on a reply that is not
    an object (line 90), whatever a [mark_run_failed] call raises (lines 117
    and 122), or whatever one of the [print] calls raises (lines 73-91). *)
Theorem escaping_exception_origin out W ctx inputs fs e :
  (run_on out W ctx inputs fs).1 = Raised e →
  (triggers (automation_run_data ctx) = [] ∧
   e = mkException "IndexError" "list index out of range") ∨
  (∃ t ts, triggers (automation_run_data ctx) = t :: ts ∧
           reply_to W ctx inputs t = inl e) ∨
  (∃ t ts v, triggers (automation_run_data ctx) = t :: ts ∧
             reply_to W ctx inputs t = inr v ∧ is_dict v = false ∧
             e = no_attribute v "items") ∨
  (∃ msg, In (MarkRunFailed msg) (log (run_on out W ctx inputs fs).2) ∧
          sdk_mark_run_failed W msg = Some e) ∨
  (∃ args, In (Stdout args) (log (run_on out W ctx inputs fs).2) ∧
           out args = Some e).
Proof.
  pose proof (run_on_cases out W ctx inputs fs) as Hpath.
  destruct Hpath as [Htr|t ts evs e' Htr Hp|t ts e' Htr Hreq Hreply
                    |t ts v evs e' Htr Hreq Hreply Hp|t ts v Htr Hreq Hreply Hresp Hd
                    |t ts items evs e' Htr Hreq Hreply Hresp Hp
                    |t ts items Htr Hprints Hreply Hf
                    |t ts items v e' st fs' Htr Hprints Hreply Hv Ht Hr
                    |t ts items v html Htr Hprints Hreply Hv Ht Hr];
    cbn [fst snd files log]; intros Hraised.
  - left. split; [done|]. congruence.
  - do 4 right. injection Hraised as <-.
    apply printing_raises in Hp as ((args & Hin & _ & Hout) & _). by exists args.
  - right; left. exists t, ts. split; [done|]. congruence.
  - do 4 right. injection Hraised as <-.
    apply printing_raises in Hp as ((args & Hin & _ & Hout) & _).
    exists args. split; [|done]. apply in_or_app. by right.
  - do 2 right; left. exists t, ts, v. repeat split; try done. congruence.
  - do 4 right. injection Hraised as <-.
    apply printing_raises in Hp as ((args & Hin & _ & Hout) & _).
    exists args. split; [|done]. apply in_or_app; right. apply in_or_app. by right.
  - do 3 right; left.
    exists "Automation failed: No building data could be retrieved!".
    split; [apply in_or_app; right; by left|].
    destruct (sdk_mark_run_failed W _); simpl in Hraised; congruence.
  - do 3 right; left.
    exists ("Automation failed: " +:+ exc_str e').
    split; [apply in_or_app; right; apply in_or_app; right; by left|].
    destruct (sdk_mark_run_failed W _); simpl in Hraised; congruence.
  - discriminate Hraised.
Qed.

Lemma escaping_exception_origin_witness :
  (triggers (automation_run_data demo_context) = [] ∧
   mkException "UnicodeEncodeError" "'utf-8' codec can't encode: surrogates not allowed"
   = mkException "IndexError" "list index out of range") ∨
  (∃ t ts, triggers (automation_run_data demo_context) = t :: ts ∧
           reply_to (demo_world (inr surrogate_note) store_any)
             demo_context demo_inputs t =
           inl (mkException "UnicodeEncodeError"
                  "'utf-8' codec can't encode: surrogates not allowed")) ∨
  (∃ t ts v, triggers (automation_run_data demo_context) = t :: ts ∧
             reply_to (demo_world (inr surrogate_note) store_any)
               demo_context demo_inputs t = inr v ∧ is_dict v = false ∧
             mkException "UnicodeEncodeError"
               "'utf-8' codec can't encode: surrogates not allowed"
             = no_attribute v "items") ∨
  (∃ msg,
     In (MarkRunFailed msg)
       (log (run_on utf8_stdout (demo_world (inr surrogate_note) store_any)
               demo_context demo_inputs ∅).2) ∧
     sdk_mark_run_failed (demo_world (inr surrogate_note) store_any) msg =
     Some (mkException "UnicodeEncodeError"
             "'utf-8' codec can't encode: surrogates not allowed")) ∨
  (∃ args,
     In (Stdout args)
       (log (run_on utf8_stdout (demo_world (inr surrogate_note) store_any)
               demo_context demo_inputs ∅).2) ∧
     utf8_stdout args =
     Some (mkException "UnicodeEncodeError"
             "'utf-8' codec can't encode: surrogates not allowed")).
Proof.
  apply (escaping_exception_origin utf8_stdout
           (demo_world (inr surrogate_note) store_any)
           demo_context demo_inputs ∅
           (mkException "UnicodeEncodeError"
              "'utf-8' codec can't encode: surrogates not allowed")).
  reflexivity.
Defined.

(** X9.  A run that returns normally has reported an outcome, and that
    report is the last thing it did. *)
Theorem returned_run_has_reported W ctx inputs fs :
  (run W ctx inputs fs).1 = Returned () →
  ∃ before ev,
    log (run W ctx inputs fs).2 = before ++ [ev] ∧ is_report ev = true.
Proof.
  pose proof (run_cases W ctx inputs fs) as Hpath.
  destruct Hpath as [Htr|t ts e' Htr Hreply|t ts v Htr Hreply Hd
                    |t ts items Htr Hreply Hf|t ts items v e' st fs' Htr Hreply Hv Ht Hr
                    |t ts items v html Htr Hreply Hv Ht Hr];
    cbn [fst snd files log]; intros Hret; try discriminate Hret.
  - by eexists _, _.
  - eexists (_ ++ _), _. by rewrite <- app_assoc.
  - exists (log_before_if ctx inputs t items ++ [StoreFileResult "building_data_html"]),
      (MarkRunSuccess "Building data table successfully generated!").
    by rewrite <- app_assoc.
Qed.

Lemma returned_run_has_reported_witness :
  ∃ before ev,
    log (run (demo_world demo_reply store_existing) demo_context demo_inputs ∅).2 =
      before ++ [ev] ∧
    is_report ev = true.
Proof.
  apply (returned_run_has_reported (demo_world demo_reply store_existing)
           demo_context demo_inputs ∅).
  reflexivity.
Defined.

(** X10.  What the platform is told is fixed by the code: every message
    passed to [mark_run_failed] starts with "Automation failed: ", the only
    message ever passed to [mark_run_success] is "Building data table
    successfully generated!", and the only path ever passed to
    [store_file_result] is "building_data_html". *)
Theorem report_texts W ctx inputs fs :
  (∀ msg, In (MarkRunFailed msg) (log (run W ctx inputs fs).2) →
          String.prefix "Automation failed: " msg = true) ∧
  (∀ msg, In (MarkRunSuccess msg) (log (run W ctx inputs fs).2) →
          msg = "Building data table successfully generated!") ∧
  (∀ path, In (StoreFileResult path) (log (run W ctx inputs fs).2) →
           path = "building_data_html").
Proof.
  split; [|split]; intros x Hin.
  - apply (in_calls is_failed) in Hin; [|done]. revert Hin.
    pose proof (run_cases W ctx inputs fs) as Hpath.
    destruct Hpath; unfold log_before_if; cbn [fst snd files log];
      try destruct st; read_log; intros Hin;
      repeat (destruct Hin as [Hin|Hin]; [injection Hin as <-|]);
      try destruct Hin; try reflexivity; apply prefix_append.
  - apply (in_calls is_success) in Hin; [|done]. revert Hin.
    pose proof (run_cases W ctx inputs fs) as Hpath.
    destruct Hpath; unfold log_before_if; cbn [fst snd files log];
      try destruct st; read_log; intros Hin;
      repeat (destruct Hin as [Hin|Hin]; [injection Hin as <-|]);
      try destruct Hin; reflexivity.
  - apply (in_calls is_store) in Hin; [|done]. revert Hin.
    pose proof (run_cases W ctx inputs fs) as Hpath.
    destruct Hpath; unfold log_before_if; cbn [fst snd files log];
      try destruct st; read_log; intros Hin;
      repeat (destruct Hin as [Hin|Hin]; [injection Hin as <-|]);
      try destruct Hin; reflexivity.
Qed.

(** X11.  [store_file_result] is only ever called after a complete write:
    if a run has called it, building_data.html exists when the run ends and
    holds a table rendered by [to_html]. *)
Theorem registration_follows_write W ctx inputs fs path :
  In (StoreFileResult path) (log (run W ctx inputs fs).2) →
  ∃ df html,
    to_html W df = inr html ∧
    files (run W ctx inputs fs).2 !! "building_data.html" = Some html.
Proof.
  intros Hin. apply (in_calls is_store) in Hin; [|done]. revert Hin.
  pose proof (run_cases W ctx inputs fs) as Hpath.
  destruct Hpath as [Htr|t ts e' Htr Hreply|t ts v Htr Hreply Hd
                    |t ts items Htr Hreply Hf|t ts items v e' st fs' Htr Hreply Hv Ht Hr
                    |t ts items v html Htr Hreply Hv Ht Hr];
    unfold log_before_if; cbn [fst snd files log].
  1-4: by read_log.
  - destruct Hr; read_log; try done; intros _;
      eexists _, _; (split; [eassumption|apply lookup_insert_eq]).
  - intros _. destruct Hr as [(df & Hdf & Hhtml) _ _ _ _].
    exists df, html. split; [done|apply lookup_insert_eq].
Qed.

Lemma registration_follows_write_witness :
  ∃ df html,
    to_html (demo_world demo_reply store_existing) df = inr html ∧
    files (run (demo_world demo_reply store_existing) demo_context demo_inputs ∅).2
      !! "building_data.html" = Some html.
Proof.
  apply (registration_follows_write (demo_world demo_reply store_existing)
           demo_context demo_inputs ∅ "building_data_html").
  vm_compute. do 13 right. left. reflexivity.
Defined.





(** X14.  Of the reply, only [building_data] decides what the handler does
    after line 93: two reply objects with the same [building_data] entry
    lead, from the same state, to the same outcome, files and calls, whatever
    their other keys (a status or an error field changes nothing). *)
Theorem other_reply_keys_ignored W items1 items2 s :
  assoc "building_data" items1 = assoc "building_data" items2 →
  handle_response W (JObj items1) s = handle_response W (JObj items2) s.
Proof.
  intros Hsame.
  unfold handle_response, dict_get, try_except, render_and_store, getitem.
  step_monad. by rewrite Hsame.
Qed.

Lemma other_reply_keys_ignored_witness :
  handle_response (demo_world demo_reply store_any)
    (JObj [("building_data", demo_table)]) (mkState ∅ []) =
  handle_response (demo_world demo_reply store_any)
    (JObj [("error", JStr "quota exceeded"); ("building_data", demo_table)])
    (mkState ∅ []).
Proof.
  apply (other_reply_keys_ignored (demo_world demo_reply store_any)
           [("building_data", demo_table)]
           [("error", JStr "quota exceeded"); ("building_data", demo_table)]
           (mkState ∅ [])).
  reflexivity.
Defined.

(** Every run with a trigger starts with the prints and the request of
    lines 73-85. *)
Lemma run_log_starts_with_request W ctx inputs fs t ts :
  triggers (automation_run_data ctx) = t :: ts →
  ∃ rest, log (run W ctx inputs fs).2 =
          request_log (automation_run_data ctx) (payload t) inputs ++ rest.
Proof.
  intros Htr.
  pose proof (run_cases W ctx inputs fs) as Hpath.
  destruct Hpath; unfold log_before_if; cbn [fst snd files log]; same_trigger.
  - exists []. by rewrite app_nil_r.
  - by eexists.
  - eexists. by rewrite <- app_assoc.
  - eexists. by rewrite <- !app_assoc.
  - eexists. by rewrite <- !app_assoc.
Qed.

(** X15.  The request comes first: whenever a run calls [store_file_result],
    [mark_run_success] or [mark_run_failed], the POST has been issued earlier
    in the same run. *)
Theorem request_precedes_outcome W ctx inputs fs before ev after :
  log (run W ctx inputs fs).2 = before ++ ev :: after →
  is_report ev || is_store ev = true →
  ∃ url body headers, In (HttpPost url body headers) before.
Proof.
  intros Hlog Hev.
  destruct (triggers (automation_run_data ctx)) as [|t ts] eqn:Htr.
  { rewrite (run_no_trigger W ctx inputs fs Htr) in Hlog. simpl in Hlog.
    by destruct before. }
  destruct (run_log_starts_with_request W ctx inputs fs t ts Htr) as [rest Hrest].
  rewrite Hrest in Hlog. symmetry in Hlog.
  exists (request_url inputs),
    (request_data (automation_run_data ctx) (payload t) inputs),
    (request_headers inputs).
  assert (In (HttpPost (request_url inputs)
                (request_data (automation_run_data ctx) (payload t) inputs)
                (request_headers inputs))
             (request_log (automation_run_data ctx) (payload t) inputs)) as Hpost.
  { unfold request_log. simpl. auto 12. }
  apply List.app_eq_app in Hlog as [l [[-> _]|[Hreq Hl]]].
  - apply in_or_app. by left.
  - destruct l as [|ev' l].
    + rewrite app_nil_r in Hreq. by rewrite <- Hreq.
    + injection Hl as <- _.
      assert (In ev (calls (λ x, is_report x || is_store x)
                       (request_log (automation_run_data ctx) (payload t) inputs)))
        as Hin.
      { apply in_calls; [|done]. rewrite Hreq. apply in_or_app. right. by left. }
      by rewrite others_request_log in Hin.
Qed.

Lemma request_precedes_outcome_witness :
  ∃ url body headers,
    In (HttpPost url body headers)
      (log_before_if demo_context demo_inputs demo_trigger [("building_data", demo_table)]).
Proof.
  apply (request_precedes_outcome (demo_world demo_reply store_any)
           demo_context demo_inputs ∅
           (log_before_if demo_context demo_inputs demo_trigger
              [("building_data", demo_table)])
           (StoreFileResult "building_data_html")
           [MarkRunSuccess "Building data table successfully generated!"]);
    reflexivity.
Defined.
